(** * kgo/os.go: host introspection

    A shallow embedding of the parts of [os.go] that read the kernel's text
    interfaces: [CpuUsage] and [GetSystemInfo] (the snapshot), [GetCpuInfo]
    (the CPU topology) and [GetPidByPort] (the port resolver).

    Go strings are byte strings: they are modelled as [string], one [ascii]
    per byte.  Go's [uint64] and [uint] (64 bits, GOARCH amd64/arm64) are [Z]
    with the wrap-around written out; [int] is [Z] as well.  A runtime panic
    (index or slice bounds out of range) is the [Panic] result. *)

From Stdlib Require Import ZArith String Ascii List Bool Lia SpecFloat.
From stdpp Require Import base strings gmap list.

Local Open Scope string_scope.
Local Open Scope Z_scope.

(** ** Results: a value or a runtime panic *)

Inductive Result (A : Type) : Type :=
| Ok (a : A)
| Panic.
Arguments Ok {A} a.
Arguments Panic {A}.

#[global] Instance Result_ret : MRet Result := fun A a => Ok a.

#[global] Instance Result_bind : MBind Result := fun A B k r =>
  match r with
  | Ok a => k a
  | Panic => Panic
  end.

(** [s[i]] on a slice: out of range is a panic. *)
Definition index {A} (s : list A) (i : nat) : Result A :=
  match s !! i with
  | Some a => Ok a
  | None => Panic
  end.

(** [s[1:]] on a slice: a panic when [len(s) < 1]. *)
Definition slice_from1 {A} (s : list A) : Result (list A) :=
  match s with
  | [] => Panic
  | _ :: t => Ok t
  end.

(** ** The Go library functions the code calls *)

Definition byte (c : ascii) : Z := Z.of_N (N_of_ascii c).

Definition TAB : ascii := ascii_of_nat 9.
Definition LF : ascii := ascii_of_nat 10.

Definition MaxUint64 : Z := 2 ^ 64 - 1.

(** [uint64] arithmetic wraps around. *)
Definition wrap64 (z : Z) : Z := z mod 2 ^ 64.

(** *** package strings *)

(** [strings.HasPrefix]. *)
Fixpoint HasPrefix (s p : string) : bool :=
  match p, s with
  | EmptyString, _ => true
  | String a p', String b s' => Ascii.eqb a b && HasPrefix s' p'
  | String _ _, EmptyString => false
  end.

Fixpoint dropBytes (n : nat) (s : string) : string :=
  match n, s with
  | O, _ => s
  | S n', String _ s' => dropBytes n' s'
  | S _, EmptyString => EmptyString
  end.

(** [strings.Split(s, sep)] for a separator of one byte, as at both call
    sites ("\n" and ":"): always at least one piece. *)
Fixpoint Split (s : string) (sep : ascii) : list string :=
  match s with
  | EmptyString => [EmptyString]
  | String c rest =>
      if Ascii.eqb c sep then EmptyString :: Split rest sep
      else match Split rest sep with
           | x :: xs => String c x :: xs
           | [] => [String c EmptyString]
           end
  end.

(** The six ASCII white space bytes of [asciiSpace]. *)
Definition isAsciiSpace (c : ascii) : bool :=
  let b := byte c in
  (b =? 9) || (b =? 10) || (b =? 11) || (b =? 12) || (b =? 13) || (b =? 32).

(** Width in bytes of the white space rune at the head of [s], 0 when the
    head is not white space.  [unicode.IsSpace] holds for the ASCII six and
    for U+0085, U+00A0, U+1680, U+2000..U+200A, U+2028, U+2029, U+202F,
    U+205F and U+3000; these are their UTF-8 encodings.  No encoding of a
    white space rune starts with a continuation byte, so looking for them
    byte by byte agrees with decoding rune by rune. *)
Definition spaceWidth (s : string) : nat :=
  match s with
  | EmptyString => 0%nat
  | String c r =>
      if isAsciiSpace c then 1%nat
      else match byte c, r with
           | 194, String d _ =>
               if (byte d =? 133) || (byte d =? 160) then 2%nat else 0%nat
           | 225, String d (String e _) =>
               if (byte d =? 154) && (byte e =? 128) then 3%nat else 0%nat
           | 226, String d (String e _) =>
               if (byte d =? 128)
                  && (((128 <=? byte e) && (byte e <=? 138))
                      || (byte e =? 168) || (byte e =? 169) || (byte e =? 175))
               then 3%nat
               else if (byte d =? 129) && (byte e =? 159) then 3%nat else 0%nat
           | 227, String d (String e _) =>
               if (byte d =? 128) && (byte e =? 128) then 3%nat else 0%nat
           | _, _ => 0%nat
           end
  end.

Definition flush (cur : string) : list string :=
  match cur with
  | EmptyString => []
  | _ => [cur]
  end.

(** The loop of [strings.Fields]: [skip] bytes of a white space rune are
    still to be passed over, [cur] is the field read so far. *)
Fixpoint FieldsFrom (skip : nat) (cur : string) (s : string) : list string :=
  match s with
  | EmptyString => flush cur
  | String c rest =>
      match skip with
      | S k => FieldsFrom k cur rest
      | O =>
          match spaceWidth s with
          | O => FieldsFrom 0 (cur ++ String c EmptyString) rest
          | S k => flush cur ++ FieldsFrom k EmptyString rest
          end
      end
  end.

(** [strings.Fields]: the maximal runs of bytes between white space. *)
Definition Fields (s : string) : list string := FieldsFrom 0 EmptyString s.

(** [strings.Replace(s, old, new, 1)]: the leftmost occurrence only. *)
Fixpoint ReplaceFirst (s old new : string) : string :=
  if HasPrefix s old then new ++ dropBytes (String.length old) s
  else match s with
       | EmptyString => EmptyString
       | String c rest => String c (ReplaceFirst rest old new)
       end.

(** *** package strconv *)

Inductive NumError : Type := ErrSyntax | ErrRange.

Definition isDigit (c : ascii) : bool := (48 <=? byte c) && (byte c <=? 57).

(** The digit loop of [strconv.ParseUint(s, 10, 64)]: a byte that is not a
    digit is a syntax error with value 0; an overflow stops the loop at
    once with the range error and [MaxUint64]. *)
Fixpoint parseUintLoop (s : string) (n : Z) : Z * option NumError :=
  match s with
  | EmptyString => (n, None)
  | String c rest =>
      if isDigit c then
        if MaxUint64 / 10 + 1 <=? n then (MaxUint64, Some ErrRange)
        else
          let n1 := n * 10 + (byte c - 48) in
          if MaxUint64 <? n1 then (MaxUint64, Some ErrRange)
          else parseUintLoop rest n1
      else (0, Some ErrSyntax)
  end.

Definition ParseUint (s : string) : Z * option NumError :=
  match s with
  | EmptyString => (0, Some ErrSyntax)
  | _ => parseUintLoop s 0
  end.

(** *** package regexp: the three patterns of os.go *)

Fixpoint dropTabs (s : string) : string :=
  match s with
  | String c r => if Ascii.eqb c TAB then dropTabs r else s
  | EmptyString => EmptyString
  end.

(** A match of ["\t+: "] anchored at the head of [s]: what follows it.
    After one tab the whole run of tabs has to be taken, since only a colon
    may follow. *)
Definition matchTwoColumnsAt (s : string) : option string :=
  match s with
  | String c r =>
      if Ascii.eqb c TAB then
        match dropTabs r with
        | String ":" (String " " rest) => Some rest
        | _ => None
        end
      else None
  | EmptyString => None
  end.

(** The leftmost match: the text before it and the text after it. *)
Fixpoint findTwoColumns (s : string) : option (string * string) :=
  match matchTwoColumnsAt s with
  | Some rest => Some (EmptyString, rest)
  | None =>
      match s with
      | EmptyString => None
      | String c r =>
          match findTwoColumns r with
          | Some (b, a) => Some (String c b, a)
          | None => None
          end
      end
  end.

(** [cpuRegTwoColumns.Split(s, 2)]: cut at the leftmost match, or the whole
    text as the only piece; never nil. *)
Definition cpuRegTwoColumns_Split2 (s : string) : list string :=
  match findTwoColumns s with
  | Some (b, a) => [b; a]
  | None => [s]
  end.

(** [cpuRegExtraSpace.ReplaceAllLiteralString(s, " ")]: every match of
    [" +"], a maximal run of spaces, becomes one space.  [inRun] says that
    the byte before was a space of the run being replaced. *)
Fixpoint replaceSpaceRuns (inRun : bool) (s : string) : string :=
  match s with
  | EmptyString => EmptyString
  | String c r =>
      if Ascii.eqb c " " then
        if inRun then replaceSpaceRuns true r
        else String " " (replaceSpaceRuns true r)
      else String c (replaceSpaceRuns false r)
  end.

Definition cpuRegExtraSpace_ReplaceAll (s : string) : string :=
  replaceSpaceRuns false s.

Fixpoint spanDigits (s : string) : string * string :=
  match s with
  | String c r =>
      if isDigit c then let (ds, rest) := spanDigits r in (String c ds, rest)
      else (EmptyString, s)
  | EmptyString => (EmptyString, EmptyString)
  end.

(** [cpuRegCacheSize.FindStringSubmatch(s)] for [^(\d+) KB$]: the whole
    match and the group of digits, or nil. *)
Definition cpuRegCacheSize_FindStringSubmatch (s : string) : option (list string) :=
  let (ds, rest) := spanDigits s in
  match ds with
  | EmptyString => None
  | _ => if String.eqb rest " KB" then Some [s; ds] else None
  end.

(** ** GetPidByPort: which process listens on a port *)

(** What [GetPidByPort] reads of the machine, and the helpers of the package
    it calls that live in other files of the repository: the results of
    [KFile.ReadInArray] (its error is dropped by the caller), the paths of
    [filepath.Glob("/proc/[0-9]*/fd/[0-9]*")], [KConv.Hex2Dec] (error
    dropped) and [getPidByInode]. *)
Record Proc : Type := {
  ReadInArray : string -> list string;
  Glob : list string;
  Hex2Dec : string -> Z;
  getPidByInode : string -> list string -> Z
}.

(** How an iteration of a [for] loop ends: the loop goes on with the named
    result [pid] as it stands, the function returns, or it panics. *)
Inductive Flow : Type :=
| Next (pid : Z)
| Return (pid : Z)
| Crash.

Definition files : list string :=
  ["/proc/net/tcp"; "/proc/net/udp"; "/proc/net/tcp6"; "/proc/net/udp6"].

(** The body of the inner loop, for one line of a table. *)
Definition scanRecord (P : Proc) (port : Z) (procDirs : list string)
    (line : string) (pid : Z) : Flow :=
  let fields := Fields line in
  if (length fields <? 10)%nat then Next pid
  else
    match fields !! 3%nat, fields !! 1%nat, fields !! 9%nat with
    | Some state, Some local, Some inode =>
        if negb (String.eqb state "0A") then Next pid
        else
          match Split local ":" !! 1%nat with
          | None => Crash
          | Some hex =>
              let locPort := Hex2Dec P hex in
              if negb (locPort =? port) then Next pid
              else
                let pid' := getPidByInode P inode procDirs in
                if 0 <? pid' then Return pid' else Next pid'
          end
    | _, _, _ => Crash
    end.

(** [for _, line := range lines[1:]]. *)
Fixpoint scanTable (P : Proc) (port : Z) (procDirs : list string)
    (lines : list string) (pid : Z) : Flow :=
  match lines with
  | [] => Next pid
  | line :: rest =>
      match scanRecord P port procDirs line pid with
      | Next pid' => scanTable P port procDirs rest pid'
      | stop => stop
      end
  end.

(** [for _, fpath := range files]: [lines[1:]] panics on a table without
    lines. *)
Fixpoint scanFiles (P : Proc) (port : Z) (procDirs : list string)
    (fs : list string) (pid : Z) : Flow :=
  match fs with
  | [] => Next pid
  | fpath :: rest =>
      match slice_from1 (ReadInArray P fpath) with
      | Panic => Crash
      | Ok body =>
          match scanTable P port procDirs body pid with
          | Next pid' => scanFiles P port procDirs rest pid'
          | stop => stop
          end
      end
  end.

Definition GetPidByPort (P : Proc) (port : Z) : Result Z :=
  let procDirs := Glob P in
  match scanFiles P port procDirs files 0 with
  | Next pid => Ok pid
  | Return pid => Ok pid
  | Crash => Panic
  end.

(** The machine [P] with the lines of the table [f] replaced. *)
Definition withTable (P : Proc) (f : string) (lines : list string) : Proc :=
  {| ReadInArray := fun g => if String.eqb g f then lines else ReadInArray P g;
     Glob := Glob P;
     Hex2Dec := Hex2Dec P;
     getPidByInode := getPidByInode P |}.

(** *** The resolver as the specification words it *)

(** The inode of a line that is a listening record on [port]. *)
Definition listening (P : Proc) (port : Z) (line : string) : option string :=
  let fields := Fields line in
  match fields !! 3%nat, fields !! 1%nat, fields !! 9%nat with
  | Some state, Some local, Some inode =>
      match Split local ":" !! 1%nat with
      | Some hex =>
          if String.eqb state "0A" && (Hex2Dec P hex =? port)
          then Some inode else None
      | None => None
      end
  | _, _, _ => None
  end.

(** The inodes of the listening records on [port], table after table in the
    order tcp, udp, tcp6, udp6, the first line of each table left out. *)
Definition listeners (P : Proc) (port : Z) : list string :=
  flat_map (fun f => omap (listening P port) (tail (ReadInArray P f))) files.

Definition first_nonzero (pids : list Z) : Z :=
  default 0 (head (filter (fun p => p <> 0) pids)).

Definition spec_GetPidByPort (P : Proc) (port : Z) : Z :=
  first_nonzero (map (fun inode => getPidByInode P inode (Glob P)) (listeners P port)).

(** A line of a table is well formed when, having ten fields and the
    listening state, its local address has the shape [addr:port]. *)
Definition wf_record (line : string) : bool :=
  let fields := Fields line in
  (length fields <? 10)%nat
  || match fields !! 3%nat, fields !! 1%nat with
     | Some state, Some local =>
         negb (String.eqb state "0A")
         || match Split local ":" !! 1%nat with
            | Some _ => true
            | None => false
            end
     | _, _ => true
     end.

(** Every table has its first line, and the lines after it are well
    formed. *)
Definition tables_ok (P : Proc) : bool :=
  forallb (fun f => match ReadInArray P f with
                    | [] => false
                    | _ :: body => forallb wf_record body
                    end) files.

(** *** The helpers, for concrete machines *)

Definition hexDigit (c : ascii) : option Z :=
  let b := byte c in
  if (48 <=? b) && (b <=? 57) then Some (b - 48)
  else if (97 <=? b) && (b <=? 102) then Some (b - 87)
  else if (65 <=? b) && (b <=? 70) then Some (b - 55)
  else None.

Fixpoint hexLoop (s : string) (n : Z) : option Z :=
  match s with
  | EmptyString => Some n
  | String c rest =>
      match hexDigit c with
      | Some d => hexLoop rest (n * 16 + d)
      | None => None
      end
  end.

(** Modelled from the spec: [KConv.Hex2Dec] is in a file of the package that
    is not among the sources.  It is "a hexadecimal-string-to-integer
    converter for port decoding", the port being "a 16-bit hexadecimal
    string that must be decoded to decimal"; the caller drops its error, and
    0 stands for the value it returns with one. *)
Definition Hex2Dec_spec (s : string) : Z :=
  match s with
  | EmptyString => 0
  | _ => default 0 (hexLoop s 0)
  end.

(** [strings.Contains]. *)
Fixpoint Contains (s sub : string) : bool :=
  HasPrefix s sub ||
  match s with
  | EmptyString => false
  | String _ rest => Contains rest sub
  end.

(** The pid segment of a path of the shape [/proc/<pid>/fd/<fd>]. *)
Definition pidOfPath (path : string) : Z :=
  fst (ParseUint (default "" (Split path "/" !! 2%nat))).

(** Modelled from the spec: [getPidByInode] is in a file of the package that
    is not among the sources.  "For each candidate path, resolve the symlink
    target text; if it contains the inode number as a bracketed substring
    (kernel encodes socket descriptors as socket:[<inode>]), extract the
    path's pid segment and return it immediately -- first match wins";
    "permission-denied or race-deleted entries are skipped silently"; zero
    if none match.  [readlink] is the symlink table of the machine. *)
Fixpoint getPidByInode_spec (readlink : string -> option string)
    (inode : string) (procDirs : list string) : Z :=
  match procDirs with
  | [] => 0
  | item :: rest =>
      match readlink item with
      | Some target =>
          if Contains target ("[" ++ inode ++ "]") then pidOfPath item
          else getPidByInode_spec readlink inode rest
      | None => getPidByInode_spec readlink inode rest
      end
  end.

(** Modelled from the spec: [KFile.ReadInArray] is in a file of the package
    that is not among the sources.  It is "a line-oriented file reader that
    returns an ordered sequence of text lines and tolerates missing files
    by returning an empty sequence"; "missing source files yield an empty
    sequence, not an error".  [tables] holds the lines of the files that
    exist. *)
Definition ReadInArray_spec (tables : list (string * list string))
    (fpath : string) : list string :=
  match List.find (fun e => String.eqb (fst e) fpath) tables with
  | Some e => snd e
  | None => []
  end.

(** A machine given by the socket tables that exist and by its descriptor
    symlinks. *)
Definition machine (tables : list (string * list string))
    (fds : list (string * string)) : Proc :=
  let readlink p := snd <$> List.find (fun e => String.eqb (fst e) p) fds in
  {| ReadInArray := ReadInArray_spec tables;
     Glob := map fst fds;
     Hex2Dec := Hex2Dec_spec;
     getPidByInode := getPidByInode_spec readlink |}.

Definition header : string :=
  "  sl  local_address rem_address   st tx_queue rx_queue tr tm->when retrnsmt   uid  timeout inode".

Definition listen8080 : string :=
  "   0: 00000000:1F90 00000000:0000 0A 00000000:00000000 00:00000000 00000000     0        0 12345 1 0000000000000000 100 0 0 10 0".

(** The machine of the testable property: one listening record on port 8080
    with inode 12345, descriptor 3 of pid 777 pointing at that socket. *)
Definition machine777 : Proc :=
  machine [("/proc/net/tcp", [header; listen8080]);
           ("/proc/net/udp", [header]);
           ("/proc/net/tcp6", [header]);
           ("/proc/net/udp6", [header])]
          [("/proc/1/fd/0", "/dev/null");
           ("/proc/777/fd/3", "socket:[12345]")].

(** A machine without the kernel's socket tables: every read of a table
    gives the empty sequence. *)
Definition machine_noproc : Proc := machine [] [].

(** ** GetCpuInfo: the CPU topology *)

Record CpuInfo : Type := {
  Vendor : string;
  Model : string;
  Speed : string;
  Cache : Z;
  Cpus : Z;
  Cores : Z;
  Threads : Z
}.

(** The variables of the scanning loop: the record being filled, the two
    maps used as sets and the physical id seen last. *)
Record CpuScan : Type := {
  res : CpuInfo;
  cpu : gmap string bool;
  core : gmap string bool;
  cpuID : string
}.

Definition setVendor (r : CpuInfo) (v : string) : CpuInfo :=
  {| Vendor := v; Model := Model r; Speed := Speed r; Cache := Cache r;
     Cpus := Cpus r; Cores := Cores r; Threads := Threads r |}.

Definition setModel (r : CpuInfo) (v : string) : CpuInfo :=
  {| Vendor := Vendor r; Model := v; Speed := Speed r; Cache := Cache r;
     Cpus := Cpus r; Cores := Cores r; Threads := Threads r |}.

Definition setSpeed (r : CpuInfo) (v : string) : CpuInfo :=
  {| Vendor := Vendor r; Model := Model r; Speed := v; Cache := Cache r;
     Cpus := Cpus r; Cores := Cores r; Threads := Threads r |}.

Definition setCache (r : CpuInfo) (v : Z) : CpuInfo :=
  {| Vendor := Vendor r; Model := Model r; Speed := Speed r; Cache := v;
     Cpus := Cpus r; Cores := Cores r; Threads := Threads r |}.

Definition setCounts (r : CpuInfo) (cpus cores : Z) : CpuInfo :=
  {| Vendor := Vendor r; Model := Model r; Speed := Speed r; Cache := Cache r;
     Cpus := cpus; Cores := cores; Threads := Threads r |}.

Definition withRes (st : CpuScan) (r : CpuInfo) : CpuScan :=
  {| res := r; cpu := cpu st; core := core st; cpuID := cpuID st |}.

(** The cleaning of a model name: [cpuRegExtraSpace] replaced by one space,
    then [strings.Replace(model, "- ", "-", 1)]. *)
Definition cleanModel (v : string) : string :=
  ReplaceFirst (cpuRegExtraSpace_ReplaceAll v) "- " "-".

(** The body of the scanning loop for one line of the dump.  [sl] is never
    nil; [sl[1]] panics when the line has no ["\t+: "]. *)
Definition scanCpuLine (text : string) (st : CpuScan) : Result CpuScan :=
  let sl := cpuRegTwoColumns_Split2 text in
  key ← index sl 0;
  if String.eqb key "physical id" then
    v ← index sl 1;
    Ok {| res := res st; cpu := <[v := true]> (cpu st); core := core st;
          cpuID := v |}
  else if String.eqb key "core id" then
    v ← index sl 1;
    let coreID := cpuID st ++ "/" ++ v in
    Ok {| res := res st; cpu := cpu st; core := <[coreID := true]> (core st);
          cpuID := cpuID st |}
  else if String.eqb key "vendor_id" then
    if String.eqb (Vendor (res st)) "" then
      v ← index sl 1; Ok (withRes st (setVendor (res st) v))
    else Ok st
  else if String.eqb key "model name" then
    if String.eqb (Model (res st)) "" then
      v ← index sl 1; Ok (withRes st (setModel (res st) (cleanModel v)))
    else Ok st
  else if String.eqb key "cpu MHz" then
    if String.eqb (Speed (res st)) "" then
      v ← index sl 1; Ok (withRes st (setSpeed (res st) v))
    else Ok st
  else if String.eqb key "cache size" then
    if Cache (res st) =? 0 then
      v ← index sl 1;
      match cpuRegCacheSize_FindStringSubmatch v with
      | Some m =>
          digits ← index m 1;
          match ParseUint digits with
          | (cache, None) => Ok (withRes st (setCache (res st) cache))
          | (_, Some _) => Ok st
          end
      | None => Ok st
      end
    else Ok st
  else Ok st.

(** [for s.Scan()]: [lines] are the texts the scanner yields. *)
Fixpoint scanCpu (lines : list string) (st : CpuScan) : Result CpuScan :=
  match lines with
  | [] => Ok st
  | text :: rest => st' ← scanCpuLine text st; scanCpu rest st'
  end.

Definition emptyCpuInfo (threads : Z) : CpuInfo :=
  {| Vendor := ""; Model := ""; Speed := ""; Cache := 0; Cpus := 0;
     Cores := 0; Threads := threads |}.

(** [cpuinfo] is [None] when [os.Open("/proc/cpuinfo")] fails and the lines
    of the file as the [bufio.Scanner] yields them otherwise; [NumCPU] is
    [runtime.NumCPU()]. *)
Definition GetCpuInfo (cpuinfo : option (list string)) (NumCPU : Z)
    : Result CpuInfo :=
  let res0 := emptyCpuInfo (wrap64 NumCPU) in
  match cpuinfo with
  | Some lines =>
      st ← scanCpu lines {| res := res0; cpu := ∅; core := ∅; cpuID := "" |};
      Ok (setCounts (res st) (Z.of_nat (size (cpu st))) (Z.of_nat (size (core st))))
  | None => Ok res0
  end.

(** A line of the dump as the kernel writes it: key, tabs, colon, value. *)
Definition kv (key value : string) : string :=
  key ++ String TAB (": " ++ value).

(** ** CpuUsage, MemoryUsage, DiskUsage and GetSystemInfo: the snapshot *)

(** The inner loop of [CpuUsage] over [fields[i]], [i] from 1: every value
    is added to [total] (wrapping), field 1 is [user], field 4 is [idle]. *)
Fixpoint tally (fields : list string) (i : nat) (acc : Z * Z * Z) : Z * Z * Z :=
  match fields with
  | [] => acc
  | f :: rest =>
      let '(user, idle, total) := acc in
      let val := fst (ParseUint f) in
      tally rest (S i)
        (if Nat.eqb i 1 then val else user,
         if Nat.eqb i 4 then val else idle,
         wrap64 (total + val))
  end.

(** The loop of [CpuUsage] over the lines: [fields[0]] panics on a line
    without fields; the first line whose first field is "cpu" ends it. *)
Fixpoint cpuLines (lines : list string) : Result (Z * Z * Z) :=
  match lines with
  | [] => Ok (0, 0, 0)
  | line :: rest =>
      let fields := Fields line in
      f0 ← index fields 0;
      if String.eqb f0 "cpu" then Ok (tally (tail fields) 1 (0, 0, 0))
      else cpuLines rest
  end.

(** [contents] are the bytes [ioutil.ReadFile("/proc/stat")] hands back,
    none when the file cannot be read; the result is (user, idle, total). *)
Definition CpuUsage (contents : string) : Result (Z * Z * Z) :=
  if (0 <? String.length contents)%nat then cpuLines (Split contents LF)
  else Ok (0, 0, 0).

(** The loop of [MemoryUsage(true)] over the lines of /proc/meminfo. *)
Fixpoint memLines (lines : list string) (free total : Z) : Z * Z :=
  match lines with
  | [] => (free, total)
  | line :: rest =>
      match Fields line with
      | [f0; f1; _] =>
          let val := fst (ParseUint f1) in
          if HasPrefix f0 "MemTotal" then memLines rest free (wrap64 (val * 1024))
          else if HasPrefix f0 "MemFree" then memLines rest (wrap64 (val * 1024)) total
          else memLines rest free total
      | _ => memLines rest free total
      end
  end.

(** Total and free bytes as gopsutil reports them ([disk.Usage],
    [mem.VirtualMemory]). *)
Record Usage : Type := { Total : Z; Free : Z }.

(** (used, free, total) of a gopsutil reading, zero on its error. *)
Definition usageOf (u : option Usage) : Z * Z * Z :=
  match u with
  | Some d => (wrap64 (Total d - Free d), Free d, Total d)
  | None => (0, 0, 0)
  end.

(** [meminfo] is the result of [ioutil.ReadFile("/proc/meminfo")], [None]
    on an error; [vm] is the result of [mem.VirtualMemory()]. *)
Definition MemoryUsage (meminfo : option string) (vm : option Usage)
    (virtual : bool) : Z * Z * Z :=
  if virtual then
    match meminfo with
    | Some contents =>
        let '(free, total) := memLines (Split contents LF) 0 0 in
        (wrap64 (total - free), free, total)
    | None => (0, 0, 0)
    end
  else usageOf vm.

Definition DiskUsage (d : option Usage) : Z * Z * Z := usageOf d.

(** The fields of [runtime.MemStats] the snapshot reads; [PauseNs] is the
    array of 256 pauses, [NumGC] a [uint32]. *)
Record MemStats : Type := {
  Alloc : Z;
  TotalAlloc : Z;
  Sys : Z;
  Lookups : Z;
  Mallocs : Z;
  Frees : Z;
  NextGC : Z;
  LastGC : Z;
  PauseTotalNs : Z;
  PauseNs : Z -> Z;
  NumGC : Z
}.

(** Everything [GetSystemInfo] reads: the runtime, the three files or
    providers, the host name, and [KTime.ServiceUptime()]. *)
Record Sources : Type := {
  mstat : MemStats;
  proc_stat : string;
  disk_root : option Usage;
  proc_meminfo : option string;
  virtual_memory : option Usage;
  Hostname : string;
  GOOS : string;
  ServiceUptime : Z;
  NumGoroutine : Z;
  NumCPU : Z
}.

(** A [float64] is a binary64 number of IEEE 754. *)
Definition float64 : Type := spec_float.

(** [float64(u)] for a [uint64]: rounded to the nearest, ties to even. *)
Definition float64_of_uint64 (u : Z) : float64 := binary_normalize 53 1024 u 0 false.

(** The quotient of two [float64]; division by zero does not panic. *)
Definition float64_div (x y : float64) : float64 := SFdiv 53 1024 x y.

Record SystemInfo : Type := {
  ServerName : string;
  SystemOs : string;
  Runtime : Z;
  GoroutineNum : Z;
  CpuNum : Z;
  CpuUser : float64;
  CpuFree : float64;
  DiskUsed : Z;
  DiskFree : Z;
  DiskTotal : Z;
  MemUsed : Z;
  MemSys : Z;
  MemFree : Z;
  MemTotal : Z;
  AllocGolang : Z;
  AllocTotal : Z;
  SysLookups : Z;
  SysMallocs : Z;
  SysFrees : Z;
  LastGCTime : Z;
  SysNextGC : Z;
  SysPauseTotalNs : Z;
  SysPauseNs : Z
}.

Definition GetSystemInfo (S : Sources) : Result SystemInfo :=
  let m := mstat S in
  '(cpuUser, cpuIdel, cpuTotal) ← CpuUsage (proc_stat S);
  let cpuUserRate := float64_div (float64_of_uint64 cpuUser) (float64_of_uint64 cpuTotal) in
  let cpuFreeRate := float64_div (float64_of_uint64 cpuIdel) (float64_of_uint64 cpuTotal) in
  let '(diskUsed, diskFree, diskTotal) := DiskUsage (disk_root S) in
  let '(memUsed, memFree, memTotal) :=
    MemoryUsage (proc_meminfo S) (virtual_memory S) true in
  Ok {| ServerName := Hostname S;
        SystemOs := GOOS S;
        Runtime := ServiceUptime S;
        GoroutineNum := NumGoroutine S;
        CpuNum := NumCPU S;
        CpuUser := cpuUserRate;
        CpuFree := cpuFreeRate;
        DiskUsed := diskUsed;
        DiskFree := diskFree;
        DiskTotal := diskTotal;
        MemUsed := memUsed;
        MemSys := Sys m;
        MemFree := memFree;
        MemTotal := memTotal;
        AllocGolang := Alloc m;
        AllocTotal := TotalAlloc m;
        SysLookups := Lookups m;
        SysMallocs := Mallocs m;
        SysFrees := Frees m;
        LastGCTime := LastGC m;
        SysNextGC := NextGC m;
        SysPauseTotalNs := PauseTotalNs m;
        SysPauseNs := PauseNs m (((NumGC m + 255) mod 2 ^ 32) mod 256) |}.

(** The snapshot's sources with a given /proc/stat and nothing else to
    read: an idle runtime, no disk, no meminfo. *)
Definition sources_with_stat (stat : string) : Sources :=
  {| mstat := {| Alloc := 0; TotalAlloc := 0; Sys := 0; Lookups := 0;
                 Mallocs := 0; Frees := 0; NextGC := 0; LastGC := 0;
                 PauseTotalNs := 0; PauseNs := fun _ => 0; NumGC := 0 |};
     proc_stat := stat;
     disk_root := None;
     proc_meminfo := None;
     virtual_memory := None;
     Hostname := "host";
     GOOS := "linux";
     ServiceUptime := 0;
     NumGoroutine := 1;
     NumCPU := 1 |}.

(** *** The topology as the specification words it *)

(** Key and value of a line of the shape [key<tab>+: value]. *)
Definition keyval (text : string) : option (string * string) :=
  match cpuRegTwoColumns_Split2 text with
  | [k; v] => Some (k, v)
  | _ => None
  end.

Definition cpuKeys : list string :=
  ["physical id"; "core id"; "vendor_id"; "model name"; "cpu MHz"; "cache size"].

(** A line the scan can pass: it is not one of the six keys standing alone,
    without the tab and colon after it. *)
Definition line_ok (text : string) : bool :=
  negb (existsb (String.eqb text) cpuKeys).

(** The values of the "physical id" lines, in the order of the dump. *)
Fixpoint physIds (lines : list string) : list string :=
  match lines with
  | [] => []
  | text :: rest =>
      match keyval text with
      | Some (k, v) =>
          if String.eqb k "physical id" then v :: physIds rest else physIds rest
      | None => physIds rest
      end
  end.

(** The value of every "core id" line, paired with the physical id seen
    most recently before it ([last] when there was none yet). *)
Fixpoint corePairs (last : string) (lines : list string) : list (string * string) :=
  match lines with
  | [] => []
  | text :: rest =>
      match keyval text with
      | Some (k, v) =>
          if String.eqb k "physical id" then corePairs v rest
          else if String.eqb k "core id" then (last, v) :: corePairs last rest
          else corePairs last rest
      | None => corePairs last rest
      end
  end.

(** The values of the lines with the key [key], in the order of the dump. *)
Fixpoint valuesOf (key : string) (lines : list string) : list string :=
  match lines with
  | [] => []
  | text :: rest =>
      match keyval text with
      | Some (k, v) =>
          if String.eqb k key then v :: valuesOf key rest else valuesOf key rest
      | None => valuesOf key rest
      end
  end.

(** The compound key [fmt.Sprintf("%s/%s", cpuID, coreID)] of a pair. *)
Definition compoundKey (pc : string * string) : string :=
  fst pc ++ "/" ++ snd pc.

(** The number of distinct values of a list. *)
Definition distinct {A} `{Countable A} (l : list A) : Z :=
  Z.of_nat (size (list_to_set l : gset A)).

Fixpoint noSlash (s : string) : bool :=
  match s with
  | EmptyString => true
  | String c r => negb (Ascii.eqb c "/") && noSlash r
  end.

(** The text before the first "/" of a key, and the text after it. *)
Fixpoint splitKey (k : string) : string * string :=
  match k with
  | EmptyString => (EmptyString, EmptyString)
  | String c r =>
      if Ascii.eqb c "/" then (EmptyString, r)
      else (String c (fst (splitKey r)), snd (splitKey r))
  end.

(** The blocks of a dump are well formed when every "physical id" has a
    value without "/" and is followed by a "core id" before the next
    "physical id" or the end of the dump.  [pending] says that a physical
    id still waits for its core id. *)
Fixpoint blocks_ok (pending : bool) (lines : list string) : bool :=
  match lines with
  | [] => negb pending
  | text :: rest =>
      match keyval text with
      | Some (k, v) =>
          if String.eqb k "physical id" then
            negb pending && noSlash v && blocks_ok true rest
          else if String.eqb k "core id" then blocks_ok false rest
          else blocks_ok pending rest
      | None => blocks_ok pending rest
      end
  end.

(** A well formed dump: no key stands alone, and the blocks are well
    formed. *)
Definition wf_dump (lines : list string) : bool :=
  forallb line_ok lines && blocks_ok false lines.

(** "Collapse every run of two or more spaces to one": a space followed by
    a space is dropped. *)
Definition startsWithSpace (s : string) : bool :=
  match s with
  | String c _ => Ascii.eqb c " "
  | EmptyString => false
  end.

Fixpoint collapseSpaces (s : string) : string :=
  match s with
  | EmptyString => EmptyString
  | String c r =>
      if Ascii.eqb c " " && startsWithSpace r then collapseSpaces r
      else String c (collapseSpaces r)
  end.

(** The first model name of a dump that is not empty once cleaned, the
    empty string when there is none. *)
Definition firstModel (lines : list string) : string :=
  default "" (head (filter (fun m => m <> "") (cleanModel <$> valuesOf "model name" lines))).

(** The literal form [<digits> KB]. *)
Definition allDigits (ds : string) : bool :=
  forallb isDigit (list_ascii_of_string ds).

Definition cacheForm (v : string) : Prop :=
  exists ds, ds <> "" /\ allDigits ds = true /\ v = ds ++ " KB".

(** The number a string of decimal digits writes, after [n]. *)
Fixpoint decimalFrom (n : Z) (ds : string) : Z :=
  match ds with
  | EmptyString => n
  | String c r => decimalFrom (n * 10 + (byte c - 48)) r
  end.

Definition decimal (ds : string) : Z := decimalFrom 0 ds.

(** The dump of the testable property: two blocks with physical id 0, one
    of them with core id 1. *)
Definition dump_two_blocks : list string :=
  [kv "processor" "0"; kv "physical id" "0"; kv "core id" "1"; "";
   kv "processor" "1"; kv "physical id" "0"; ""].

(** The dump of a machine with one package of two cores. *)
Definition dump_two_cores : list string :=
  [kv "processor" "0"; kv "vendor_id" "GenuineIntel";
   kv "model name" "Intel(R)  Xeon(R)- Platinum"; kv "cache size" "8192 KB";
   kv "physical id" "0"; kv "core id" "0"; "";
   kv "processor" "1"; kv "vendor_id" "GenuineIntel";
   kv "model name" "Intel(R)  Xeon(R)- Platinum"; kv "cache size" "8192 KB";
   kv "physical id" "0"; kv "core id" "1"; ""].

(** What one line does to the two sets and to the physical id seen last. *)
Definition stepSets (text : string) (st st' : CpuScan) : Prop :=
  match keyval text with
  | Some (k, v) =>
      if String.eqb k "physical id" then
        cpu st' = <[v := true]> (cpu st) /\ core st' = core st /\ cpuID st' = v
      else if String.eqb k "core id" then
        cpu st' = cpu st /\
        core st' = <[compoundKey (cpuID st, v) := true]> (core st) /\
        cpuID st' = cpuID st
      else cpu st' = cpu st /\ core st' = core st /\ cpuID st' = cpuID st
  | None => cpu st' = cpu st /\ core st' = core st /\ cpuID st' = cpuID st
  end.

(** *** The snapshot's ratios *)

Definition is_zero (x : float64) : Prop :=
  x = S754_zero false \/ x = S754_zero true.

(** *** A CPU property dump, line by line *)

(** A line of /proc/cpuinfo as the kernel writes it: a property, which is
    a key, one tab or more ([moreTabs] after the first), a colon, a space
    and the value; or any other text, such as the empty line that ends a
    block. *)
Inductive DumpLine : Type :=
| Property (key : string) (moreTabs : nat) (value : string)
| Other (text : string).

Fixpoint tabs (n : nat) (s : string) : string :=
  match n with
  | O => s
  | S k => String TAB (tabs k s)
  end.

(** The text of a line. *)
Definition render (l : DumpLine) : string :=
  match l with
  | Property key n value => key ++ String TAB (tabs n (String ":" (String " " value)))
  | Other text => text
  end.

Fixpoint noTab (s : string) : bool :=
  match s with
  | EmptyString => true
  | String c r => negb (Ascii.eqb c TAB) && noTab r
  end.

(** The values of the "physical id" properties of a dump, in its order. *)
Fixpoint packageIds (d : list DumpLine) : list string :=
  match d with
  | [] => []
  | Property key _ value :: rest =>
      if String.eqb key "physical id" then value :: packageIds rest
      else packageIds rest
  | Other _ :: rest => packageIds rest
  end.

(** The value of every "core id" property of a dump, paired with the
    value of the "physical id" property seen most recently before it
    ([last] when there was none yet). *)
Fixpoint packageCorePairs (last : string) (d : list DumpLine) : list (string * string) :=
  match d with
  | [] => []
  | Property key _ value :: rest =>
      if String.eqb key "physical id" then packageCorePairs value rest
      else if String.eqb key "core id" then (last, value) :: packageCorePairs last rest
      else packageCorePairs last rest
  | Other _ :: rest => packageCorePairs last rest
  end.

(** A dump in the kernel's format: no key holds a tab, the other lines
    hold no tab and are not one of the six keys standing alone, and the
    physical ids (numbers) hold no "/". *)
Definition dumpLine_ok (l : DumpLine) : bool :=
  match l with
  | Property key _ _ => noTab key
  | Other text => noTab text && line_ok text
  end.

Definition dump_ok (d : list DumpLine) : bool :=
  forallb dumpLine_ok d && forallb noSlash (packageIds d).

(** The dump of the testable property, as the kernel lays it out: two
    blocks that both report physical id 0, the first one also core id 1. *)
Definition two_blocks : list DumpLine :=
  [Property "processor" 0 "0"; Property "physical id" 0 "0";
   Property "core id" 1 "1"; Other "";
   Property "processor" 0 "1"; Property "physical id" 0 "0"; Other ""].

(** ** Further definitions for the properties of the rest of the code *)

(** The values [strconv.ParseUint] gives for a list of fields. *)
Definition tickValues (fields : list string) : list Z :=
  (fun f => fst (ParseUint f)) <$> fields.

Definition sumZ (l : list Z) : Z := foldr Z.add 0 l.

(** [strings.Join(lines, "\n")]. *)
Fixpoint joinLines (lines : list string) : string :=
  match lines with
  | [] => EmptyString
  | [l] => l
  | l :: rest => l ++ String LF (joinLines rest)
  end.

(** A text without a newline byte. *)
Fixpoint noLF (s : string) : bool :=
  match s with
  | EmptyString => true
  | String c r => negb (Ascii.eqb c LF) && noLF r
  end.

(** The first field of a line is "cpu". *)
Definition isCpuLine (line : string) : bool :=
  match Fields line with
  | f0 :: _ => String.eqb f0 "cpu"
  | [] => false
  end.

(** The first string of a list that is not empty, the empty string when
    there is none. *)
Definition firstNonEmpty (l : list string) : string :=
  default "" (head (filter (fun m => m <> "") l)).

(** ** IP addresses: IsPublicIP, PrivateCIDR, IsPrivateIp, LocalIP, GetIPs,
       GetIpByHostname, GetIpsByDomain *)

(** A [net.IP] is a slice of bytes, of length 4 or 16 when it is an
    address; a byte is an [ascii], as in the strings.  Where Go tells a
    nil slice from an empty one, the nil slice is [None]. *)
Definition b8 (n : nat) : ascii := ascii_of_nat n.

(** [p[i]] as a number, for an index the code has checked against the
    length of the slice. *)
Definition byteAt (p : list ascii) (i : nat) : Z :=
  match p !! i with
  | Some c => byte c
  | None => 0
  end.

Definition bytesEqual (x y : list ascii) : bool := bool_decide (x = y).

Definition v4InV6Prefix : list ascii := replicate 10 (b8 0) ++ [b8 255; b8 255].

Definition IPv6loopback : list ascii := replicate 15 (b8 0) ++ [b8 1].

Definition isZeros (p : list ascii) : bool := forallb (fun c => byte c =? 0) p.

(** [IP.To4]: the address as four bytes, nil when it is not an IPv4
    address. *)
Definition To4 (ip : list ascii) : option (list ascii) :=
  if (length ip =? 4)%nat then Some ip
  else if (length ip =? 16)%nat && isZeros (take 10 ip)
          && (byteAt ip 10 =? 255) && (byteAt ip 11 =? 255)
       then Some (drop 12 ip)
       else None.

(** [IP.Equal]. *)
Definition IP_Equal (ip x : list ascii) : bool :=
  if (length ip =? length x)%nat then bytesEqual ip x
  else if (length ip =? 4)%nat && (length x =? 16)%nat then
         bytesEqual (take 12 x) v4InV6Prefix && bytesEqual ip (drop 12 x)
  else if (length ip =? 16)%nat && (length x =? 4)%nat then
         bytesEqual (take 12 ip) v4InV6Prefix && bytesEqual (drop 12 ip) x
  else false.

(** [IP.IsLoopback]. *)
Definition IsLoopback (ip : list ascii) : bool :=
  match To4 ip with
  | Some ip4 => byteAt ip4 0 =? 127
  | None => IP_Equal ip IPv6loopback
  end.

(** [IP.IsLinkLocalMulticast]. *)
Definition IsLinkLocalMulticast (ip : list ascii) : bool :=
  match To4 ip with
  | Some ip4 => (byteAt ip4 0 =? 224) && (byteAt ip4 1 =? 0) && (byteAt ip4 2 =? 0)
  | None =>
      (length ip =? 16)%nat && (byteAt ip 0 =? 255)
      && (Z.land (byteAt ip 1) 15 =? 2)
  end.

(** [IP.IsLinkLocalUnicast]. *)
Definition IsLinkLocalUnicast (ip : list ascii) : bool :=
  match To4 ip with
  | Some ip4 => (byteAt ip4 0 =? 169) && (byteAt ip4 1 =? 254)
  | None =>
      (length ip =? 16)%nat && (byteAt ip 0 =? 254)
      && (Z.land (byteAt ip 1) 192 =? 128)
  end.

(** [IsPublicIP]: the [switch true] takes the first case that holds, and
    [ip4[1]] is read only after [ip4[0]] has matched. *)
Definition IsPublicIP (ip : list ascii) : Result bool :=
  if IsLoopback ip || IsLinkLocalMulticast ip || IsLinkLocalUnicast ip then Ok false
  else
    match To4 ip with
    | Some ip4 =>
        a ← index ip4 0;
        if byte a =? 10 then Ok false
        else
          c172 ← (if byte a =? 172 then
                    b ← index ip4 1; Ok ((16 <=? byte b) && (byte b <=? 31))
                  else Ok false);
          if (c172 : bool) then Ok false
          else
            c192 ← (if byte a =? 192 then b ← index ip4 1; Ok (byte b =? 168)
                    else Ok false);
            if (c192 : bool) then Ok false else Ok true
    | None => Ok false
    end.

(** A [net.IPNet]: the network number and the mask. *)
Record IPNet : Type := { netIP : list ascii; netMask : list ascii }.

(** The loop of [net.CIDRMask] over the [l] bytes of the mask, [n] ones
    still to be written. *)
Fixpoint cidrMaskBytes (l : nat) (n : Z) : list ascii :=
  match l with
  | O => []
  | S l' =>
      if 8 <=? n then b8 255 :: cidrMaskBytes l' (n - 8)
      else b8 (Z.to_nat (255 - Z.shiftr 255 n)) :: cidrMaskBytes l' 0
  end.

(** [net.CIDRMask(ones, bits)], nil for lengths that are not 32 or 128. *)
Definition CIDRMask (ones bits : Z) : list ascii :=
  if negb (bits =? 32) && negb (bits =? 128) then []
  else if (ones <? 0) || (bits <? ones) then []
  else cidrMaskBytes (Z.to_nat (bits / 8)) ones.

Definition allFF (p : list ascii) : bool := forallb (fun c => byte c =? 255) p.

Definition andBytes (x y : list ascii) : list ascii :=
  zip_with (fun a b => b8 (Z.to_nat (Z.land (byte a) (byte b)))) x y.

(** [IP.Mask]. *)
Definition IP_Mask (ip mask : list ascii) : list ascii :=
  let mask :=
    if (length mask =? 16)%nat && (length ip =? 4)%nat && allFF (take 12 mask)
    then drop 12 mask else mask in
  let ip :=
    if (length mask =? 4)%nat && (length ip =? 16)%nat
       && bytesEqual (take 12 ip) v4InV6Prefix
    then drop 12 ip else ip in
  if (length ip =? length mask)%nat then andBytes ip mask else [].

(** What [net.ParseCIDR] makes of an address of 16 bytes and a prefix
    length it has read: the network [IP.Mask(m)] with [m = CIDRMask]. *)
Definition cidrOf (addr16 : list ascii) (ones bits : Z) : IPNet :=
  {| netIP := IP_Mask addr16 (CIDRMask ones bits); netMask := CIDRMask ones bits |}.

Definition v4 (a b c d : nat) : list ascii := v4InV6Prefix ++ [b8 a; b8 b; b8 c; b8 d].

Definition v6 (hi lo : nat) (last : nat) : list ascii :=
  [b8 hi; b8 lo] ++ replicate 13 (b8 0) ++ [b8 last].

(** The eight literals of [maxCidrBlocks] as [net.ParseCIDR] reads them:
    the address in its 16 bytes, the prefix length and the bits of the
    family. *)
Definition maxCidrBlocks : list (list ascii * Z * Z) :=
  [ (v4 127 0 0 1, 8, 32);       (* "127.0.0.1/8" *)
    (v4 10 0 0 0, 8, 32);        (* "10.0.0.0/8" *)
    (v4 172 16 0 0, 12, 32);     (* "172.16.0.0/12" *)
    (v4 192 168 0 0, 16, 32);    (* "192.168.0.0/16" *)
    (v4 169 254 0 0, 16, 32);    (* "169.254.0.0/16" *)
    (v6 0 0 1, 128, 128);        (* "::1/128" *)
    (v6 252 0 0, 7, 128);        (* "fc00::/7" *)
    (v6 254 128 0, 10, 128) ].   (* "fe80::/10" *)

(** [PrivateCIDR]. *)
Definition PrivateCIDR : list IPNet :=
  (fun '(addr, ones, bits) => cidrOf addr ones bits) <$> maxCidrBlocks.

(** [networkNumberAndMask]; the nil slices are empty lists. *)
Definition networkNumberAndMask (n : IPNet) : list ascii * list ascii :=
  let ip := match To4 (netIP n) with Some ip4 => Some ip4
            | None => if (length (netIP n) =? 16)%nat then Some (netIP n) else None
            end in
  match ip with
  | None => ([], [])
  | Some ip =>
      let m := netMask n in
      if (length m =? 4)%nat then
        if (length ip =? 4)%nat then (ip, m) else ([], [])
      else if (length m =? 16)%nat then
        if (length ip =? 4)%nat then (ip, drop 12 m) else (ip, m)
      else ([], [])
  end.

(** [IPNet.Contains]. *)
Definition Contains_net (n : IPNet) (ip : list ascii) : bool :=
  let '(nn, m) := networkNumberAndMask n in
  let ip := match To4 ip with Some x => x | None => ip end in
  if negb (length ip =? length nn)%nat then false
  else forallb (fun i => Z.land (byteAt nn i) (byteAt m i)
                         =? Z.land (byteAt ip i) (byteAt m i))
               (seq 0 (length ip)).

(** [IsPrivateIp]: [ParseIP] is [net.ParseIP], [cidrs] the package
    variable [KPrivCidrs] before the call; the result is the pair the
    function returns and [KPrivCidrs] after the call. *)
Definition IsPrivateIp (ParseIP : string -> option (list ascii))
    (cidrs : option (list IPNet)) (address : string)
    : (bool * option string) * option (list IPNet) :=
  match ParseIP address with
  | None => ((false, Some "address is not valid ip"), cidrs)
  | Some ip =>
      let cidrs' := match cidrs with None => PrivateCIDR | Some l => l end in
      ((existsb (fun n => Contains_net n ip) cidrs', None), Some cidrs')
  end.

(** An element of [net.InterfaceAddrs()]: a [*net.IPNet], or an address
    of another type, for which the type assertion fails. *)
Inductive Addr : Type :=
| AddrIPNet (ip mask : list ascii)
| AddrOther.

(** The test both [LocalIP] and [GetIPs] make of an address. *)
Definition isLocalV4 (a : Addr) : option (list ascii) :=
  match a with
  | AddrIPNet ip _ =>
      if negb (IsLoopback ip) then
        match To4 ip with Some _ => Some ip | None => None end
      else None
  | AddrOther => None
  end.

(** [LocalIP]: [str] is [IP.String]; the loop breaks at the first
    address taken. *)
Fixpoint localIPLoop (str : list ascii -> string) (addrs : list Addr) : string :=
  match addrs with
  | [] => ""
  | a :: rest =>
      match isLocalV4 a with
      | Some ip => str ip
      | None => localIPLoop str rest
      end
  end.

Definition LocalIP (str : list ascii -> string) (addrs : list Addr)
    (err : option string) : string * option string :=
  (if (0 <? length addrs)%nat then localIPLoop str addrs else "", err).

(** [GetIPs]: the error of [net.InterfaceAddrs] is dropped. *)
Fixpoint GetIPs (str : list ascii -> string) (addrs : list Addr) : list string :=
  match addrs with
  | [] => []
  | a :: rest =>
      match isLocalV4 a with
      | Some ip => str ip :: GetIPs str rest
      | None => GetIPs str rest
      end
  end.

(** [GetIpByHostname]: [ips] and [err] are the results of
    [net.LookupIP]. *)
Fixpoint firstV4 (str : list ascii -> string) (ips : list (list ascii)) : string :=
  match ips with
  | [] => ""
  | v :: rest =>
      match To4 v with
      | Some _ => str v
      | None => firstV4 str rest
      end
  end.

Definition GetIpByHostname (str : list ascii -> string)
    (ips : option (list (list ascii))) (err : option string)
    : string * option string :=
  match ips with
  | Some l => (firstV4 str l, None)
  | None => ("", err)
  end.

(** [GetIpsByDomain]. *)
Fixpoint allV4 (str : list ascii -> string) (ips : list (list ascii)) : list string :=
  match ips with
  | [] => []
  | v :: rest =>
      match To4 v with
      | Some _ => str v :: allV4 str rest
      | None => allV4 str rest
      end
  end.

Definition GetIpsByDomain (str : list ascii -> string)
    (ips : option (list (list ascii))) (err : option string)
    : list string * option string :=
  match ips with
  | Some l => (allV4 str l, None)
  | None => ([], err)
  end.

(** An IPv4 address a.b.c.d is public for [IsPublicIP] when it is not
    loopback (127/8), not link-local multicast (224.0.0/24), not link-local
    unicast (169.254/16) and not in 10/8, 172.16/12 or 192.168/16. *)
Definition publicV4 (a b c : Z) : bool :=
  negb ((a =? 127)
        || ((a =? 224) && (b =? 0) && (c =? 0))
        || ((a =? 169) && (b =? 254))
        || (a =? 10)
        || ((a =? 172) && (16 <=? b) && (b <=? 31))
        || ((a =? 192) && (b =? 168))).

(** An IPv4 address a.b.c.d is in one of the IPv4 blocks of
    [maxCidrBlocks]. *)
Definition privateV4 (a b : Z) : bool :=
  (a =? 127) || (a =? 10)
  || ((a =? 172) && (16 <=? b) && (b <=? 31))
  || ((a =? 192) && (b =? 168))
  || ((a =? 169) && (b =? 254)).

(** A parser for the examples: it knows two addresses. *)
Definition parseTwo (s : string) : option (list ascii) :=
  if String.eqb s "192.168.1.10" then Some (v4 192 168 1 10)
  else if String.eqb s "100.64.0.1" then Some (v4 100 64 0 1)
  else None.

(** ** ClientIp *)

Definition revString (s : string) : string :=
  string_of_list_ascii (rev (list_ascii_of_string s)).

(** The start of [strings.TrimSpace]: the white space runes at the head
    are passed over; [skip] bytes of one are still to be passed. *)
Fixpoint trimLeftFrom (skip : nat) (s : string) : string :=
  match s with
  | EmptyString => EmptyString
  | String c rest =>
      match skip with
      | S k => trimLeftFrom k rest
      | O =>
          match spaceWidth s with
          | O => s
          | S k => trimLeftFrom k rest
          end
      end
  end.

(** Width of the white space rune at the end of a text, the text being
    given reversed: the last byte [e], the byte [d] before it and the byte
    [c] before that are put back in order and tested as at the head. *)
Definition spaceWidthRev (r : string) : nat :=
  match r with
  | EmptyString => 0%nat
  | String e r1 =>
      if isAsciiSpace e then 1%nat
      else
        match r1 with
        | EmptyString => 0%nat
        | String d r2 =>
            if Nat.eqb (spaceWidth (String d (String e EmptyString))) 2 then 2%nat
            else
              match r2 with
              | EmptyString => 0%nat
              | String c _ =>
                  if Nat.eqb (spaceWidth (String c (String d (String e EmptyString)))) 3
                  then 3%nat else 0%nat
              end
        end
  end.

Fixpoint trimRightRev (skip : nat) (r : string) : string :=
  match r with
  | EmptyString => EmptyString
  | String c rest =>
      match skip with
      | S k => trimRightRev k rest
      | O =>
          match spaceWidthRev r with
          | O => r
          | S k => trimRightRev k rest
          end
      end
  end.

(** [strings.TrimSpace]. *)
Definition TrimSpace (s : string) : string :=
  revString (trimRightRev 0 (revString (trimLeftFrom 0 s))).

(** The loop of [ClientIp] over the entries of X-Forwarded-For: the first
    entry that, trimmed, [IsPrivateIp] reports not private and without
    error is returned; [cidrs] is [KPrivCidrs], which the calls may set. *)
Fixpoint forwardedLoop (ParseIP : string -> option (list ascii))
    (entries : list string) (cidrs : option (list IPNet))
    : option string * option (list IPNet) :=
  match entries with
  | [] => (None, cidrs)
  | e :: rest =>
      let address := TrimSpace e in
      let '((isPrivate, err), cidrs') := IsPrivateIp ParseIP cidrs address in
      match err with
      | None => if negb isPrivate then (Some address, cidrs')
                else forwardedLoop ParseIP rest cidrs'
      | Some _ => forwardedLoop ParseIP rest cidrs'
      end
  end.

(** [strings.ContainsRune(s, ':')]. *)
Fixpoint containsColon (s : string) : bool :=
  match s with
  | EmptyString => false
  | String c r => Ascii.eqb c ":" || containsColon r
  end.

(** [ClientIp]: [xRealIP] and [xForwardedFor] are the two header values,
    [RemoteAddr] the address of the request, [SplitHost] the host that
    [net.SplitHostPort] gives (its error is dropped) and [ParseIP]
    [net.ParseIP]. *)
Definition ClientIp (ParseIP : string -> option (list ascii))
    (SplitHost : string -> string) (cidrs : option (list IPNet))
    (xRealIP xForwardedFor RemoteAddr : string)
    : string * option (list IPNet) :=
  if String.eqb xRealIP "" && String.eqb xForwardedFor "" then
    (if containsColon RemoteAddr then SplitHost RemoteAddr else RemoteAddr, cidrs)
  else
    match forwardedLoop ParseIP (Split xForwardedFor ",") cidrs with
    | (Some address, cidrs') => (address, cidrs')
    | (None, cidrs') =>
        (if String.eqb xRealIP "::1" then "127.0.0.1" else xRealIP, cidrs')
    end.

(** An entry of X-Forwarded-For that counts: trimmed, it parses, and no
    block of [PrivateCIDR] contains it. *)
Definition publicEntry (ParseIP : string -> option (list ascii)) (e : string) : bool :=
  match ParseIP (TrimSpace e) with
  | Some ip => negb (existsb (fun n => Contains_net n ip) PrivateCIDR)
  | None => false
  end.

(** * Properties *)

(** ** The port resolver *)

Lemma parseUintLoop_nonneg s : forall n, 0 <= n -> 0 <= fst (parseUintLoop s n).
Proof.
  induction s as [|c s IH]; intros n Hn; simpl; [exact Hn|].
  destruct (isDigit c) eqn:Hd; simpl; [|lia].
  destruct (MaxUint64 / 10 + 1 <=? n); simpl; [unfold MaxUint64; lia|].
  destruct (MaxUint64 <? n * 10 + (byte c - 48)); simpl; [unfold MaxUint64; lia|].
  apply IH. unfold isDigit in Hd. lia.
Qed.

Lemma ParseUint_nonneg s : 0 <= fst (ParseUint s).
Proof.
  destruct s; simpl; [lia|]. apply (parseUintLoop_nonneg (String a s) 0). lia.
Qed.

Lemma getPidByInode_spec_nonneg readlink inode dirs :
  0 <= getPidByInode_spec readlink inode dirs.
Proof.
  induction dirs as [|item rest IH]; simpl; [lia|].
  destruct (readlink item); [|exact IH].
  destruct (Contains _ _); [apply ParseUint_nonneg | exact IH].
Qed.

Lemma machine_pid_nonneg tables fds inode dirs :
  0 <= getPidByInode (machine tables fds) inode dirs.
Proof. apply getPidByInode_spec_nonneg. Qed.

Lemma scanTable_app P port dirs pre post pid :
  scanTable P port dirs (pre ++ post) pid =
  match scanTable P port dirs pre pid with
  | Next pid' => scanTable P port dirs post pid'
  | stop => stop
  end.
Proof.
  revert pid. induction pre as [|l pre IH]; intros pid; simpl; [reflexivity|].
  destruct (scanRecord P port dirs l pid); auto.
Qed.

Lemma scanRecord_short P port dirs line pid :
  (length (Fields line) < 10)%nat -> scanRecord P port dirs line pid = Next pid.
Proof.
  intros H. unfold scanRecord.
  apply Nat.ltb_lt in H. rewrite H. reflexivity.
Qed.

Lemma scanRecord_Return P port dirs line pid q :
  scanRecord P port dirs line pid = Return q -> 0 < q.
Proof.
  unfold scanRecord.
  destruct (length (Fields line) <? 10)%nat; [discriminate|].
  destruct (Fields line !! 3%nat); [|discriminate].
  destruct (Fields line !! 1%nat); [|discriminate].
  destruct (Fields line !! 9%nat); [|discriminate].
  destruct (negb _); [discriminate|].
  destruct (Split _ _ !! 1%nat); [|discriminate].
  destruct (negb _); [discriminate|].
  destruct (0 <? _) eqn:E; [|discriminate].
  intros [= <-]. lia.
Qed.

Lemma scanTable_Return P port dirs lines : forall pid q,
  scanTable P port dirs lines pid = Return q -> 0 < q.
Proof.
  induction lines as [|l lines IH]; intros pid q; simpl; [discriminate|].
  destruct (scanRecord P port dirs l pid) eqn:E; eauto.
  - intros [= <-]. eapply scanRecord_Return; eauto.
  - discriminate.
Qed.

Lemma scanTable_withTable P f ls port dirs lines pid :
  scanTable (withTable P f ls) port dirs lines pid = scanTable P port dirs lines pid.
Proof.
  revert pid. induction lines as [|l lines IH]; intros pid; simpl; [reflexivity|].
  change (scanRecord (withTable P f ls) port dirs l pid)
    with (scanRecord P port dirs l pid).
  destruct (scanRecord P port dirs l pid); auto.
Qed.

(** Two machines that differ in the lines of one table, the lines after the
    first being scanned alike, resolve alike. *)
Lemma scanFiles_same_scan P f ls1 ls2 port dirs :
  (forall pid, match slice_from1 ls1, slice_from1 ls2 with
               | Ok b1, Ok b2 => scanTable P port dirs b1 pid = scanTable P port dirs b2 pid
               | Panic, Panic => True
               | _, _ => False
               end) ->
  forall fs pid,
    scanFiles (withTable P f ls1) port dirs fs pid =
    scanFiles (withTable P f ls2) port dirs fs pid.
Proof.
  intros H fs. induction fs as [|g fs IH]; intros pid; [reflexivity|].
  simpl. destruct (String.eqb g f).
  - specialize (H pid).
    destruct (slice_from1 ls1) as [b1|], (slice_from1 ls2) as [b2|]; try contradiction.
    + rewrite !scanTable_withTable, H.
      destruct (scanTable P port dirs b2 pid); auto.
    + reflexivity.
  - destruct (slice_from1 (ReadInArray P g)) as [b|]; [|reflexivity].
    rewrite !scanTable_withTable.
    destruct (scanTable P port dirs b pid); auto.
Qed.

Lemma scanFiles_empty_table P port dirs f :
  ReadInArray P f = [] ->
  forall fs pid, f ∈ fs ->
    scanFiles P port dirs fs pid = Crash \/
    exists q, 0 < q /\ scanFiles P port dirs fs pid = Return q.
Proof.
  intros He fs. induction fs as [|g fs IH]; intros pid Hin.
  - inversion Hin.
  - simpl. destruct (decide (g = f)) as [->|Hne].
    + rewrite He. simpl. left. reflexivity.
    + assert (f ∈ fs) as Hin' by (inversion Hin; subst; [contradiction|assumption]).
      destruct (slice_from1 (ReadInArray P g)) as [b|]; [|left; reflexivity].
      destruct (scanTable P port dirs b pid) eqn:E.
      * apply IH, Hin'.
      * right. exists pid0. split; [|reflexivity]. eapply scanTable_Return; eauto.
      * left. reflexivity.
Qed.

Section Resolver.
Variable P : Proc.
Variable port : Z.
Hypothesis pid_nonneg : forall inode dirs, 0 <= getPidByInode P inode dirs.

Let pidOf (inode : string) : Z := getPidByInode P inode (Glob P).

Lemma scanRecord_listening line :
  wf_record line = true ->
  scanRecord P port (Glob P) line 0 =
  match listening P port line with
  | Some inode => if 0 <? pidOf inode then Return (pidOf inode) else Next 0
  | None => Next 0
  end.
Proof.
  unfold wf_record, scanRecord, listening, pidOf. intros Hwf.
  destruct (length (Fields line) <? 10)%nat eqn:Hlen.
  - apply Nat.ltb_lt in Hlen.
    rewrite (proj2 (lookup_ge_None (Fields line) 9%nat)) by lia.
    destruct (Fields line !! 3%nat), (Fields line !! 1%nat); reflexivity.
  - apply Nat.ltb_ge in Hlen. simpl in Hwf.
    destruct (lookup_lt_is_Some_2 (Fields line) 3%nat) as [state Hs]; [lia|].
    destruct (lookup_lt_is_Some_2 (Fields line) 1%nat) as [loc Hl]; [lia|].
    destruct (lookup_lt_is_Some_2 (Fields line) 9%nat) as [inode Hi]; [lia|].
    rewrite Hs, Hl, Hi in *.
    destruct (String.eqb state "0A"); simpl in *.
    + destruct (Split loc ":" !! 1%nat) as [hex|]; [|discriminate].
      destruct (Hex2Dec P hex =? port); simpl; [|reflexivity].
      destruct (0 <? getPidByInode P inode (Glob P)) eqn:E; [reflexivity|].
      f_equal. specialize (pid_nonneg inode (Glob P)). lia.
    + destruct (Split loc ":" !! 1%nat); reflexivity.
Qed.

Lemma scanTable_listening body :
  forallb wf_record body = true ->
  scanTable P port (Glob P) body 0 =
  match filter (fun p => p <> 0) (map pidOf (omap (listening P port) body)) with
  | p :: _ => Return p
  | [] => Next 0
  end.
Proof.
  induction body as [|line body IH]; intros Hwf; [reflexivity|].
  simpl in Hwf. apply andb_true_iff in Hwf as [Hl Hb].
  simpl scanTable. rewrite (scanRecord_listening line Hl).
  change (omap (listening P port) (line :: body))
    with (match listening P port line with
          | Some y => y :: omap (listening P port) body
          | None => omap (listening P port) body
          end).
  destruct (listening P port line) as [inode|]; [|apply IH, Hb].
  simpl map. destruct (0 <? pidOf inode) eqn:E.
  - rewrite filter_cons_True by lia. reflexivity.
  - rewrite filter_cons_False; [apply IH, Hb|].
    specialize (pid_nonneg inode (Glob P)). fold (pidOf inode) in pid_nonneg. lia.
Qed.

Lemma scanFiles_listening fs :
  forallb (fun f => match ReadInArray P f with
                    | [] => false
                    | _ :: body => forallb wf_record body
                    end) fs = true ->
  scanFiles P port (Glob P) fs 0 =
  match filter (fun p => p <> 0)
          (map pidOf (flat_map (fun f => omap (listening P port) (tail (ReadInArray P f))) fs)) with
  | p :: _ => Return p
  | [] => Next 0
  end.
Proof.
  induction fs as [|f fs IH]; intros Hok; [reflexivity|].
  simpl in Hok. apply andb_true_iff in Hok as [Hf Hfs].
  cbn [scanFiles flat_map].
  destruct (ReadInArray P f) as [|hdr body]; [discriminate|].
  cbn [slice_from1 tail].
  rewrite (scanTable_listening body Hf), map_app, filter_app.
  destruct (filter _ (map pidOf (omap (listening P port) body))) as [|p ps].
  - simpl. apply IH, Hfs.
  - reflexivity.
Qed.
End Resolver.

(** C2.  On a machine whose four tables each have their first line and well
    formed records after it, and whose inode-to-pid match never yields a
    negative pid, [GetPidByPort] returns, for every port, what the
    specification says: among the listening records on that port, taken
    table after table in the order tcp, udp, tcp6, udp6, the first nonzero
    pid of the inode-to-pid match, and 0 when there is none. *)
Theorem GetPidByPort_first_listener (P : Proc) (port : Z) :
  tables_ok P = true ->
  (forall inode dirs, 0 <= getPidByInode P inode dirs) ->
  GetPidByPort P port = Ok (spec_GetPidByPort P port).
Proof.
  intros Hok Hnn. unfold GetPidByPort, spec_GetPidByPort, first_nonzero, listeners.
  rewrite (scanFiles_listening P port Hnn files Hok).
  destruct (filter _ _); reflexivity.
Qed.

Lemma GetPidByPort_first_listener_witness :
  tables_ok machine777 = true /\
  GetPidByPort machine777 8080 = Ok (spec_GetPidByPort machine777 8080) /\
  spec_GetPidByPort machine777 8080 = 777.
Proof.
  split; [vm_compute; reflexivity|]. split.
  - apply (GetPidByPort_first_listener machine777 8080).
    + vm_compute; reflexivity.
    + intros inode dirs. apply machine_pid_nonneg.
  - vm_compute; reflexivity.
Defined.

(** The testable properties of the resolver: pid 777 for port 8080, and 0
    when no descriptor targets the inode. *)
Example GetPidByPort_777 : GetPidByPort machine777 8080 = Ok 777.
Proof. vm_compute; reflexivity. Qed.

Example GetPidByPort_no_descriptor :
  GetPidByPort (machine [("/proc/net/tcp", [header; listen8080]);
                         ("/proc/net/udp", [header]);
                         ("/proc/net/tcp6", [header]);
                         ("/proc/net/udp6", [header])]
                        [("/proc/1/fd/0", "/dev/null")]) 8080 = Ok 0.
Proof. vm_compute; reflexivity. Qed.

(** C3.  On a machine without the socket tables, where every read of a
    table gives the empty sequence, [GetPidByPort] panics at [lines[1:]]
    for every port: it does not return 0. *)
Theorem GetPidByPort_missing_tables_panics (port : Z) :
  GetPidByPort machine_noproc port = Panic.
Proof. reflexivity. Qed.

(** C9.  A line with fewer than ten fields is skipped by the loop body,
    whatever the result so far, and taking such a line out of the lines
    scanned of any table (those after the first) leaves the result of
    [GetPidByPort], a pid or a panic, as it is. *)
Theorem short_line_skipped (P : Proc) (port : Z) (f hdr : string)
    (pre post : list string) (line : string) :
  (length (Fields line) < 10)%nat ->
  (forall dirs pid, scanRecord P port dirs line pid = Next pid) /\
  GetPidByPort (withTable P f (hdr :: pre ++ line :: post)) port =
  GetPidByPort (withTable P f (hdr :: pre ++ post)) port.
Proof.
  intros Hshort. split.
  - intros dirs pid. apply scanRecord_short, Hshort.
  - unfold GetPidByPort. simpl Glob.
    rewrite (scanFiles_same_scan P f (hdr :: pre ++ line :: post) (hdr :: pre ++ post));
      [reflexivity|].
    intros pid. simpl.
    rewrite !scanTable_app. destruct (scanTable P port (Glob P) pre pid); auto.
    simpl. rewrite (scanRecord_short _ _ _ _ _ Hshort). reflexivity.
Qed.

Lemma short_line_skipped_witness :
  (length (Fields "garbage 0A 1F90") < 10)%nat /\
  GetPidByPort (withTable machine777 "/proc/net/tcp"
                  (header :: [] ++ "garbage 0A 1F90" :: [listen8080])) 8080 =
  GetPidByPort (withTable machine777 "/proc/net/tcp"
                  (header :: [] ++ [listen8080])) 8080.
Proof.
  split; [vm_compute; lia|].
  apply (short_line_skipped machine777 8080 "/proc/net/tcp" header [] [listen8080]
           "garbage 0A 1F90").
  vm_compute; lia.
Defined.

(** C10.  The first line of every table is dropped unread: two machines
    that differ only in the first line of a table resolve every port
    alike, so a listening record on the first line is never considered;
    and a table without any line stops the scan, which panics at once when
    it is the tcp table, and otherwise panics unless an earlier table has
    already given a pid. *)
Theorem first_line_discarded (P : Proc) (port : Z) :
  (forall f l l' rest,
     GetPidByPort (withTable P f (l :: rest)) port =
     GetPidByPort (withTable P f (l' :: rest)) port) /\
  (ReadInArray P "/proc/net/tcp" = [] -> GetPidByPort P port = Panic) /\
  (forall f, f ∈ files -> ReadInArray P f = [] ->
     GetPidByPort P port = Panic \/
     exists pid, 0 < pid /\ GetPidByPort P port = Ok pid).
Proof.
  split; [|split].
  - intros f l l' rest. unfold GetPidByPort. simpl Glob.
    rewrite (scanFiles_same_scan P f (l :: rest) (l' :: rest)); [reflexivity|].
    intros pid. reflexivity.
  - intros He. unfold GetPidByPort. simpl. rewrite He. reflexivity.
  - intros f Hin He. unfold GetPidByPort.
    destruct (scanFiles_empty_table P port (Glob P) f He files 0 Hin) as [->|(q & Hq & ->)].
    + left; reflexivity.
    + right. exists q. split; [exact Hq|reflexivity].
Qed.

Lemma first_line_discarded_witness :
  GetPidByPort (withTable machine777 "/proc/net/tcp" [listen8080]) 8080 =
  GetPidByPort (withTable machine777 "/proc/net/tcp" [header]) 8080 /\
  GetPidByPort (withTable machine777 "/proc/net/tcp" []) 8080 = Panic /\
  (GetPidByPort (withTable machine777 "/proc/net/udp6" []) 8080 = Panic \/
   exists pid, 0 < pid /\
     GetPidByPort (withTable machine777 "/proc/net/udp6" []) 8080 = Ok pid).
Proof.
  pose proof (first_line_discarded machine777 8080) as (H1 & _).
  pose proof (first_line_discarded (withTable machine777 "/proc/net/tcp" []) 8080)
    as (_ & H2 & _).
  pose proof (first_line_discarded (withTable machine777 "/proc/net/udp6" []) 8080)
    as (_ & _ & H3).
  split; [apply H1|]. split; [apply H2; reflexivity|].
  apply (H3 "/proc/net/udp6"); [|reflexivity].
  unfold files. rewrite !elem_of_cons. auto.
Defined.

(** A listening record on the first line of the tcp table is not seen. *)
Example first_line_listener_ignored :
  GetPidByPort (withTable machine777 "/proc/net/tcp" [listen8080]) 8080 = Ok 0.
Proof. vm_compute; reflexivity. Qed.

(** ** The CPU topology *)

#[local] Set Warnings "-clear-no-such-hyp".

Lemma Split2_shape text :
  (cpuRegTwoColumns_Split2 text = [text] /\ keyval text = None) \/
  (exists k v, cpuRegTwoColumns_Split2 text = [k; v] /\ keyval text = Some (k, v)).
Proof.
  unfold keyval, cpuRegTwoColumns_Split2.
  destruct (findTwoColumns text) as [[b a]|]; [right; eauto | left; auto].
Qed.

Lemma line_ok_keys text :
  line_ok text = true ->
  String.eqb text "physical id" = false /\ String.eqb text "core id" = false /\
  String.eqb text "vendor_id" = false /\ String.eqb text "model name" = false /\
  String.eqb text "cpu MHz" = false /\ String.eqb text "cache size" = false.
Proof.
  unfold line_ok, cpuKeys. cbn [existsb]. rewrite negb_true_iff, !orb_false_iff.
  tauto.
Qed.

Lemma FindStringSubmatch_shape v m :
  cpuRegCacheSize_FindStringSubmatch v = Some m ->
  exists ds, m = [v; ds] /\ spanDigits v = (ds, " KB") /\ ds <> "".
Proof.
  unfold cpuRegCacheSize_FindStringSubmatch.
  destruct (spanDigits v) as [ds rest] eqn:E.
  destruct ds as [|c ds]; [discriminate|].
  destruct (String.eqb rest " KB") eqn:Er; [|discriminate].
  apply String.eqb_eq in Er. subst rest. intros [= <-].
  eexists; split; [reflexivity|]. split; [reflexivity|discriminate].
Qed.

Lemma scanCpuLine_ok text st :
  line_ok text = true ->
  exists st', scanCpuLine text st = Ok st' /\
              Threads (res st') = Threads (res st) /\ stepSets text st st'.
Proof.
  intros Hok. unfold stepSets, scanCpuLine.
  destruct (Split2_shape text) as [[-> ->]|(k & v & -> & ->)].
  - apply line_ok_keys in Hok as (H1 & H2 & H3 & H4 & H5 & H6).
    cbn. rewrite H1, H2, H3, H4, H5, H6. exists st. auto.
  - cbn.
    destruct (String.eqb k "physical id"); [eexists; cbn; eauto|].
    destruct (String.eqb k "core id"); [eexists; cbn; eauto|].
    destruct (String.eqb k "vendor_id");
      [destruct (String.eqb (Vendor (res st)) ""); eexists; cbn; eauto|].
    destruct (String.eqb k "model name");
      [destruct (String.eqb (Model (res st)) ""); eexists; cbn; eauto|].
    destruct (String.eqb k "cpu MHz");
      [destruct (String.eqb (Speed (res st)) ""); eexists; cbn; eauto|].
    destruct (String.eqb k "cache size"); [|eexists; cbn; eauto].
    destruct (Cache (res st) =? 0); [|eexists; cbn; eauto].
    destruct (cpuRegCacheSize_FindStringSubmatch v) as [m|] eqn:Em;
      [|eexists; cbn; eauto].
    apply FindStringSubmatch_shape in Em as (ds & -> & _ & _). cbn.
    destruct (ParseUint ds) as [c [e|]]; eexists; cbn; eauto.
Qed.

Lemma scanCpu_sets lines : forall st,
  forallb line_ok lines = true ->
  exists st', scanCpu lines st = Ok st' /\
    Threads (res st') = Threads (res st) /\
    dom (cpu st') = dom (cpu st) ∪ list_to_set (physIds lines) /\
    dom (core st') =
      dom (core st) ∪ list_to_set (compoundKey <$> corePairs (cpuID st) lines).
Proof.
  induction lines as [|text lines IH]; intros st Hok.
  - exists st. cbn. repeat split; set_solver.
  - cbn in Hok. apply andb_true_iff in Hok as [Ht Hl].
    destruct (scanCpuLine_ok text st Ht) as (st1 & E1 & T1 & S1).
    destruct (IH st1 Hl) as (st' & E' & T' & C' & K').
    exists st'. cbn [scanCpu]. rewrite E1. cbn. split; [exact E'|].
    split; [congruence|].
    rewrite C', K'. unfold stepSets in S1. cbn [physIds corePairs].
    destruct (keyval text) as [[k v]|].
    + destruct (String.eqb k "physical id").
      * destruct S1 as (-> & -> & ->). rewrite dom_insert_L. set_solver.
      * destruct (String.eqb k "core id").
        -- destruct S1 as (-> & -> & ->). rewrite dom_insert_L. set_solver.
        -- destruct S1 as (-> & -> & ->). auto.
    + destruct S1 as (-> & -> & ->). auto.
Qed.

(** The counts [GetCpuInfo] reports for a dump it can pass. *)
Lemma GetCpuInfo_counts lines n :
  forallb line_ok lines = true ->
  exists r, GetCpuInfo (Some lines) n = Ok r /\
    Threads r = wrap64 n /\
    Cpus r = distinct (physIds lines) /\
    Cores r = distinct (compoundKey <$> corePairs "" lines).
Proof.
  intros Hok. unfold GetCpuInfo.
  destruct (scanCpu_sets lines
              {| res := emptyCpuInfo (wrap64 n); cpu := ∅; core := ∅; cpuID := "" |} Hok)
    as (st & -> & T & C & K).
  cbn in T, C, K. eexists. split; [reflexivity|]. cbn.
  split; [exact T|]. unfold distinct.
  rewrite <- (size_dom (D := gset string) (cpu st)), C.
  rewrite <- (size_dom (D := gset string) (core st)), K.
  rewrite dom_empty_L, !(left_id_L ∅ (∪)). auto.
Qed.

Lemma size_list_to_set_le `{Countable A} (l : list A) :
  (size (list_to_set l : gset A) <= length l)%nat.
Proof.
  induction l as [|x l IH]; cbn [length].
  - rewrite list_to_set_nil, size_empty. lia.
  - rewrite list_to_set_cons, size_union_alt, size_singleton.
    assert (size (list_to_set l ∖ {[x]} : gset A) <= size (list_to_set l : gset A))%nat
      by (apply subseteq_size; set_solver).
    lia.
Qed.

(** A set covered by the image of another is not larger. *)
Lemma size_covered `{Countable A} `{Countable B} (g : B -> A) (X : gset A) (Y : gset B) :
  (forall x, x ∈ X -> exists y, y ∈ Y /\ g y = x) ->
  (size X <= size Y)%nat.
Proof.
  intros Hcov.
  assert (X ⊆ list_to_set (g <$> elements Y)) as Hsub.
  { intros x Hx. destruct (Hcov x Hx) as (y & Hy & <-).
    rewrite elem_of_list_to_set, list_elem_of_fmap.
    exists y. split; [reflexivity|]. apply elem_of_elements, Hy. }
  apply subseteq_size in Hsub.
  pose proof (size_list_to_set_le (g <$> elements Y)) as Hle.
  rewrite length_fmap in Hle.
  apply (Nat.le_trans _ _ _ Hsub), (Nat.le_trans _ _ _ Hle). reflexivity.
Qed.

Lemma splitKey_compound p c :
  noSlash p = true -> splitKey (compoundKey (p, c)) = (p, c).
Proof.
  unfold compoundKey. cbn [fst snd]. induction p as [|a p IH]; intros Hp.
  - reflexivity.
  - cbn in Hp. apply andb_true_iff in Hp as [Ha Hp].
    apply negb_true_iff in Ha.
    change (String a p ++ "/" ++ c) with (String a (p ++ "/" ++ c)).
    cbn [splitKey]. rewrite Ha, (IH Hp). reflexivity.
Qed.

Lemma corePairs_fst lines : forall last p c,
  (p, c) ∈ corePairs last lines -> p = last \/ p ∈ physIds lines.
Proof.
  induction lines as [|text lines IH]; intros last p c Hin; cbn in *.
  - inversion Hin.
  - destruct (keyval text) as [[k v]|]; [|eauto].
    destruct (String.eqb k "physical id").
    + apply IH in Hin as [->|Hin]; right; [left | right; exact Hin].
    + destruct (String.eqb k "core id"); [|eauto].
      apply elem_of_cons in Hin as [[= -> ->]|Hin]; eauto.
Qed.

Lemma distinct_pairs_keys last lines :
  noSlash last = true ->
  forallb noSlash (physIds lines) = true ->
  distinct (compoundKey <$> corePairs last lines) = distinct (corePairs last lines).
Proof.
  intros Hlast Hids. unfold distinct. f_equal. apply Nat.le_antisymm.
  - apply (size_covered compoundKey). intros k Hk.
    rewrite elem_of_list_to_set, list_elem_of_fmap in Hk.
    destruct Hk as (pc & -> & Hpc). exists pc.
    rewrite elem_of_list_to_set. auto.
  - apply (size_covered splitKey). intros [p c] Hpc.
    rewrite elem_of_list_to_set in Hpc. exists (compoundKey (p, c)). split.
    + rewrite elem_of_list_to_set, list_elem_of_fmap. eauto.
    + apply splitKey_compound.
      destruct (corePairs_fst _ _ _ _ Hpc) as [->|Hin]; [exact Hlast|].
      rewrite forallb_forall in Hids. apply Hids, list_elem_of_In, Hin.
Qed.

(** In well formed blocks every physical id gets a core id. *)
Lemma blocks_ok_cores lines : forall pending last,
  blocks_ok pending lines = true ->
  forallb noSlash (physIds lines) = true /\
  (forall p, p ∈ physIds lines -> exists c, (p, c) ∈ corePairs last lines) /\
  (pending = true -> exists c, (last, c) ∈ corePairs last lines).
Proof.
  induction lines as [|text lines IH]; intros pending last Hb; cbn in *.
  - split; [reflexivity|]. split; [intros p Hp; inversion Hp|].
    intros ->. discriminate.
  - destruct (keyval text) as [[k v]|]; [|apply (IH pending last Hb)].
    destruct (String.eqb k "physical id").
    + apply andb_true_iff in Hb as [Hb Hrest]. apply andb_true_iff in Hb as [Hpn Hv].
      destruct (IH true v Hrest) as (Hn & Hall & Hpend).
      split; [cbn; rewrite Hv, Hn; reflexivity|].
      split.
      * intros p Hp. apply elem_of_cons in Hp as [->|Hp]; [apply Hpend; reflexivity|].
        apply Hall, Hp.
      * intros ->. discriminate Hpn.
    + destruct (String.eqb k "core id").
      * destruct (IH false last Hb) as (Hn & Hall & _).
        split; [exact Hn|]. split.
        -- intros p Hp. destruct (Hall p Hp) as [c Hc]. exists c. right. exact Hc.
        -- intros _. exists v. left.
      * apply (IH pending last Hb).
Qed.

Lemma findTwoColumns_property key n value :
  noTab key = true ->
  findTwoColumns (render (Property key n value)) = Some (key, value).
Proof.
  cbn [render]. induction key as [|c key IH]; intros Hk.
  - change ("" ++ String TAB (tabs n (String ":" (String " " value))))
      with (String TAB (tabs n (String ":" (String " " value)))).
    assert (dropTabs (tabs n (String ":" (String " " value)))
            = String ":" (String " " value)) as Hd
      by (induction n as [|n IHn]; [reflexivity|exact IHn]).
    unfold findTwoColumns, matchTwoColumnsAt.
    change (Ascii.eqb TAB TAB) with true. cbn iota. rewrite Hd. reflexivity.
  - cbn in Hk. apply andb_true_iff in Hk as [Hc Hk]. apply negb_true_iff in Hc.
    change (String c key ++ String TAB (tabs n (String ":" (String " " value))))
      with (String c (key ++ String TAB (tabs n (String ":" (String " " value))))).
    cbn [findTwoColumns]. unfold matchTwoColumnsAt at 1. rewrite Hc, (IH Hk).
    reflexivity.
Qed.

Lemma findTwoColumns_noTab text : noTab text = true -> findTwoColumns text = None.
Proof.
  induction text as [|c text IH]; intros Hk; [reflexivity|].
  cbn in Hk. apply andb_true_iff in Hk as [Hc Hk]. apply negb_true_iff in Hc.
  cbn [findTwoColumns]. unfold matchTwoColumnsAt at 1. rewrite Hc, (IH Hk).
  reflexivity.
Qed.

Lemma keyval_render l :
  dumpLine_ok l = true ->
  keyval (render l) = match l with
                      | Property key _ value => Some (key, value)
                      | Other _ => None
                      end.
Proof.
  unfold keyval, cpuRegTwoColumns_Split2. destruct l as [key n value|text]; cbn [dumpLine_ok].
  - intros Hk. rewrite (findTwoColumns_property key n value Hk). reflexivity.
  - intros H. apply andb_true_iff in H as [Hk _]. cbn [render].
    rewrite (findTwoColumns_noTab text Hk). reflexivity.
Qed.

Lemma noTab_append_tab key rest : noTab (key ++ String TAB rest) = false.
Proof.
  induction key as [|c key IH]; [reflexivity|].
  change (String c key ++ String TAB rest) with (String c (key ++ String TAB rest)).
  cbn [noTab]. rewrite IH. apply andb_false_r.
Qed.

Lemma line_ok_render l : dumpLine_ok l = true -> line_ok (render l) = true.
Proof.
  destruct l as [key n value|text]; cbn [dumpLine_ok render].
  - intros _. unfold line_ok. apply negb_true_iff.
    apply not_true_is_false. intros Hex. apply existsb_exists in Hex as (k & Hin & Heq).
    apply String.eqb_eq in Heq.
    pose proof (noTab_append_tab key (tabs n (String ":" (String " " value)))) as Ht.
    rewrite Heq in Ht. unfold cpuKeys in Hin. cbn [In] in Hin.
    destruct Hin as [<-|[<-|[<-|[<-|[<-|[<-|[]]]]]]]; discriminate Ht.
  - intros H. apply andb_true_iff in H as [_ H]. exact H.
Qed.

(** On a dump in the kernel's format the code's splitter finds the
    properties: the ids and pairs it collects are those of the dump. *)
Lemma render_dump d :
  forallb dumpLine_ok d = true ->
  forallb line_ok (render <$> d) = true /\
  physIds (render <$> d) = packageIds d /\
  forall last, corePairs last (render <$> d) = packageCorePairs last d.
Proof.
  induction d as [|l d IH]; intros Hok; [auto|].
  cbn in Hok. apply andb_true_iff in Hok as [Hl Hd].
  destruct (IH Hd) as (H1 & H2 & H3).
  cbn [fmap list_fmap forallb physIds corePairs].
  rewrite (line_ok_render l Hl), (keyval_render l Hl), H1.
  split; [reflexivity|].
  destruct l as [key n value|text]; cbn [packageIds packageCorePairs].
  - split.
    + destruct (String.eqb key "physical id"); [f_equal|]; exact H2.
    + intros last. destruct (String.eqb key "physical id"); [apply H3|].
      destruct (String.eqb key "core id"); [f_equal|]; apply H3.
  - split; [exact H2|exact H3].
Qed.

(** C5.  For every CPU property dump in the kernel's format (lines
    "key<tab>+: value" whose keys hold no tab, other lines without a tab
    that are not a key standing alone, physical ids without "/"),
    [GetCpuInfo] returns a record whose [Cpus] is the number of distinct
    "physical id" values of the dump and whose [Cores] is the number of
    distinct pairs of a "core id" value with the physical id seen most
    recently before it; and the dump of two blocks that both report
    physical id 0, one of them core id 1, gives [Cpus = 1] and
    [Cores = 1]. *)
Theorem GetCpuInfo_distinct_counts (d : list DumpLine) (n : Z) :
  dump_ok d = true ->
  (exists r, GetCpuInfo (Some (render <$> d)) n = Ok r /\
     Cpus r = distinct (packageIds d) /\
     Cores r = distinct (packageCorePairs "" d)) /\
  (exists r, GetCpuInfo (Some (render <$> two_blocks)) n = Ok r /\
     Cpus r = 1 /\ Cores r = 1).
Proof.
  intros Hok. split.
  - unfold dump_ok in Hok. apply andb_true_iff in Hok as [Hl Hids].
    destruct (render_dump d Hl) as (Hlines & Hp & Hc).
    destruct (GetCpuInfo_counts (render <$> d) n Hlines) as (r & E & _ & Hcpus & Hcores).
    exists r. split; [exact E|]. rewrite Hcpus, Hcores, Hp. split; [reflexivity|].
    rewrite distinct_pairs_keys by (try rewrite Hp; auto).
    rewrite Hc. reflexivity.
  - eexists. split; [reflexivity|]. split; reflexivity.
Qed.

Lemma GetCpuInfo_distinct_counts_witness :
  dump_ok two_blocks = true /\
  (exists r, GetCpuInfo (Some (render <$> two_blocks)) 2 = Ok r /\
     Cpus r = distinct (packageIds two_blocks) /\
     Cores r = distinct (packageCorePairs "" two_blocks)) /\
  distinct (packageIds two_blocks) = 1 /\
  distinct (packageCorePairs "" two_blocks) = 1.
Proof.
  split; [vm_compute; reflexivity|]. split.
  - apply (GetCpuInfo_distinct_counts two_blocks 2). vm_compute. reflexivity.
  - split; vm_compute; reflexivity.
Defined.

(** The testable property: two blocks with physical id 0, one core id 1. *)
Example GetCpuInfo_two_blocks :
  exists r, GetCpuInfo (Some dump_two_blocks) 2 = Ok r /\ Cpus r = 1 /\ Cores r = 1.
Proof. eexists. split; [vm_compute; reflexivity|]. split; reflexivity. Qed.

(** C8, as the claim words it, fails: the dump of a machine with two cores
    is well formed, and a process that may run on one CPU only has
    [runtime.NumCPU() = 1]. *)
Lemma cores_exceed_threads :
  wf_dump dump_two_cores = true /\
  exists r, GetCpuInfo (Some dump_two_cores) 1 = Ok r /\ ~ (Cores r <= Threads r).
Proof.
  split; [vm_compute; reflexivity|].
  eexists. split; [vm_compute; reflexivity|]. cbn. lia.
Qed.

(** C8, amended.  For every well formed dump, when [runtime.NumCPU()] is at
    least the number of "core id" lines of the dump (one for each logical
    processor), [GetCpuInfo] returns a record with [Cores <= Threads] and
    [Cpus <= Cores]; and when /proc/cpuinfo cannot be opened the record has
    the empty strings and zero counts, with [Threads] the [NumCPU] of the
    runtime. *)
Theorem GetCpuInfo_invariant (lines : list string) (n : Z) :
  wf_dump lines = true ->
  Z.of_nat (length (corePairs "" lines)) <= n < 2 ^ 64 ->
  (exists r, GetCpuInfo (Some lines) n = Ok r /\
     Cores r <= Threads r /\ Cpus r <= Cores r) /\
  GetCpuInfo None n = Ok (emptyCpuInfo n).
Proof.
  intros Hwf Hn. unfold wf_dump in Hwf. apply andb_true_iff in Hwf as [Hok Hb].
  assert (wrap64 n = n) as Hw by (unfold wrap64; apply Z.mod_small; lia).
  split; [|unfold GetCpuInfo; rewrite Hw; reflexivity].
  destruct (GetCpuInfo_counts lines n Hok) as (r & E & Ht & Hc & Hk).
  exists r. split; [exact E|]. rewrite Ht, Hc, Hk, Hw. unfold distinct. split.
  - pose proof (size_list_to_set_le (compoundKey <$> corePairs "" lines)) as Hle.
    rewrite length_fmap in Hle. lia.
  - destruct (blocks_ok_cores lines false "" Hb) as (Hids & Hall & _).
    apply inj_le.
    apply (size_covered (fun k => fst (splitKey k))). intros p Hp.
    rewrite elem_of_list_to_set in Hp. destruct (Hall p Hp) as [c Hc'].
    exists (compoundKey (p, c)). split.
    + rewrite elem_of_list_to_set, list_elem_of_fmap. eauto.
    + rewrite splitKey_compound; [reflexivity|].
      rewrite forallb_forall in Hids. apply Hids, list_elem_of_In, Hp.
Qed.

Lemma GetCpuInfo_invariant_witness :
  (exists r, GetCpuInfo (Some dump_two_cores) 2 = Ok r /\
     Cores r <= Threads r /\ Cpus r <= Cores r) /\
  GetCpuInfo None 2 = Ok (emptyCpuInfo 2).
Proof.
  apply (GetCpuInfo_invariant dump_two_cores 2); [vm_compute; reflexivity|].
  change (Z.of_nat (length (corePairs "" dump_two_cores))) with 2. lia.
Defined.

(** *** The model name and the cache size *)

Lemma replaceSpaceRuns_collapse s :
  replaceSpaceRuns false s = collapseSpaces s /\
  String " " (replaceSpaceRuns true s) = collapseSpaces (String " " s).
Proof.
  induction s as [|c s [IH1 IH2]]; [split; reflexivity|].
  cbn [replaceSpaceRuns collapseSpaces startsWithSpace].
  change (Ascii.eqb " " " ") with true. cbn [andb].
  destruct (Ascii.eqb c " ") eqn:Ec.
  - apply Ascii.eqb_eq in Ec. subst c. split; [exact IH2|].
    rewrite IH2. reflexivity.
  - cbn [andb]. rewrite IH1. split; reflexivity.
Qed.

Lemma allDigits_cons c ds :
  allDigits (String c ds) = isDigit c && allDigits ds.
Proof. reflexivity. Qed.

Lemma spanDigits_spec s : forall ds rest,
  spanDigits s = (ds, rest) -> s = ds ++ rest /\ allDigits ds = true.
Proof.
  induction s as [|c s IH]; intros ds rest; cbn.
  - intros [= <- <-]. split; reflexivity.
  - destruct (isDigit c) eqn:Hd.
    + destruct (spanDigits s) as [ds' rest'] eqn:E. intros [= <- <-].
      destruct (IH ds' rest' eq_refl) as [-> Ha]. split; [reflexivity|].
      rewrite allDigits_cons, Hd, Ha. reflexivity.
    + intros [= <- <-]. split; reflexivity.
Qed.

Lemma spanDigits_KB ds :
  allDigits ds = true -> spanDigits (ds ++ " KB") = (ds, " KB").
Proof.
  induction ds as [|c ds IH]; intros Ha; [reflexivity|].
  rewrite allDigits_cons in Ha. apply andb_true_iff in Ha as [Hc Ha].
  change (String c ds ++ " KB") with (String c (ds ++ " KB")).
  cbn [spanDigits]. rewrite Hc, (IH Ha). reflexivity.
Qed.

(** What one line does to [Model] and to [Cache]. *)
Lemma scanCpuLine_model_cache text st st' :
  scanCpuLine text st = Ok st' ->
  Model (res st') =
    (if String.eqb (Model (res st)) "" then
       default "" (head (cleanModel <$> valuesOf "model name" [text]))
     else Model (res st)) /\
  (Cache (res st') = Cache (res st) \/
   exists v, v ∈ valuesOf "cache size" [text] /\ cacheForm v).
Proof.
  unfold scanCpuLine. cbn [valuesOf]. unfold keyval. intros E.
  destruct (Split2_shape text) as [[Hs _]|(k & v & Hs & _)]; rewrite Hs in *; cbn in E.
  - assert (st' = st) as ->.
    { repeat match type of E with
             | context [if ?b then _ else _] => destruct b
             end; inversion E; reflexivity. }
    split; [|left; reflexivity].
    destruct (String.eqb (Model (res st)) "") eqn:Hm; [|reflexivity].
    apply String.eqb_eq in Hm. exact Hm.
  - destruct (String.eqb k "physical id") eqn:E1;
      [apply String.eqb_eq in E1; subst k; inversion E; subst st'; cbn;
       split; [|left; reflexivity];
       destruct (String.eqb (Model (res st)) "") eqn:Hm; [|reflexivity];
       apply String.eqb_eq in Hm; exact Hm|].
    destruct (String.eqb k "core id") eqn:E2;
      [apply String.eqb_eq in E2; subst k; inversion E; subst st'; cbn;
       split; [|left; reflexivity];
       destruct (String.eqb (Model (res st)) "") eqn:Hm; [|reflexivity];
       apply String.eqb_eq in Hm; exact Hm|].
    destruct (String.eqb k "vendor_id") eqn:E3;
      [apply String.eqb_eq in E3; subst k;
       destruct (String.eqb (Vendor (res st)) ""); inversion E; subst st'; cbn;
       (split; [|left; reflexivity]);
       (destruct (String.eqb (Model (res st)) "") eqn:Hm; [|reflexivity]);
       apply String.eqb_eq in Hm; exact Hm|].
    destruct (String.eqb k "model name") eqn:E4.
    { cbn. destruct (String.eqb (Model (res st)) "") eqn:Hm;
        inversion E; subst st'; cbn; (split; [|left; reflexivity]).
      - reflexivity.
      - reflexivity. }
    assert (default "" (head (cleanModel <$>
              (if String.eqb k "model name" then [v] else []))) = "") as Hnone
      by (rewrite E4; reflexivity).
    rewrite E4 in *. clear Hnone.
    assert (Model (res st) =
            (if String.eqb (Model (res st)) "" then default "" (head (cleanModel <$> []))
             else Model (res st))) as Hkeep.
    { destruct (String.eqb (Model (res st)) "") eqn:Hm; [|reflexivity].
      apply String.eqb_eq in Hm. exact Hm. }
    destruct (String.eqb k "cpu MHz") eqn:E5;
      [apply String.eqb_eq in E5; subst k;
       destruct (String.eqb (Speed (res st)) ""); inversion E; subst st'; cbn;
       (split; [exact Hkeep|left; reflexivity])|].
    destruct (String.eqb k "cache size") eqn:E6;
      [|inversion E; subst st'; split; [exact Hkeep|left; reflexivity]].
    destruct (Cache (res st) =? 0);
      [|inversion E; subst st'; split; [exact Hkeep|left; reflexivity]].
    destruct (cpuRegCacheSize_FindStringSubmatch v) as [m|] eqn:Em;
      [|inversion E; subst st'; split; [exact Hkeep|left; reflexivity]].
    apply FindStringSubmatch_shape in Em as (ds & -> & Hspan & Hne). cbn in E.
    destruct (spanDigits_spec v ds " KB" Hspan) as [Hv Ha].
    destruct (ParseUint ds) as [c [e|]]; inversion E; subst st'; cbn;
      (split; [exact Hkeep|]); [left; reflexivity|].
    right. exists v. split; [left|]. exists ds. auto.
Qed.

Lemma valuesOf_cons key text lines :
  valuesOf key (text :: lines) = (valuesOf key [text] ++ valuesOf key lines)%list.
Proof.
  cbn. destruct (keyval text) as [[k v]|]; [|reflexivity].
  destruct (String.eqb k key); reflexivity.
Qed.

Lemma valuesOf_app key pre lines :
  valuesOf key (pre ++ lines)%list = (valuesOf key pre ++ valuesOf key lines)%list.
Proof.
  induction pre as [|text pre IH]; [reflexivity|].
  change ((text :: pre) ++ lines)%list with (text :: (pre ++ lines))%list.
  rewrite (valuesOf_cons key text (pre ++ lines)%list), (valuesOf_cons key text pre), IH.
  apply app_assoc.
Qed.

Lemma valuesOf_single key text :
  valuesOf key [text] = [] \/ exists v, valuesOf key [text] = [v].
Proof.
  cbn. destruct (keyval text) as [[k v]|]; [|left; reflexivity].
  destruct (String.eqb k key); [right; eauto | left; reflexivity].
Qed.

Lemma scanCpu_model lines : forall st st',
  scanCpu lines st = Ok st' ->
  Model (res st') =
    (if String.eqb (Model (res st)) "" then firstModel lines else Model (res st)).
Proof.
  induction lines as [|text lines IH]; intros st st' E; cbn [scanCpu] in E.
  - inversion E; subst. destruct (String.eqb (Model (res st')) "") eqn:Hm; [|reflexivity].
    apply String.eqb_eq in Hm. exact Hm.
  - destruct (scanCpuLine text st) as [st1|] eqn:E1; [|discriminate].
    cbn [mbind Result_bind] in E.
    destruct (scanCpuLine_model_cache _ _ _ E1) as [H1 _].
    rewrite (IH st1 st' E).
    destruct (String.eqb (Model (res st)) "") eqn:Hm; [|rewrite H1, Hm; reflexivity].
    unfold firstModel. rewrite (valuesOf_cons "model name" text lines).
    destruct (valuesOf_single "model name" text) as [Hs|[v Hs]]; rewrite Hs in *;
      cbn [fmap list_fmap app head default from_option] in *; unfold id in *.
    + rewrite H1. reflexivity.
    + rewrite H1. destruct (String.eqb (cleanModel v) "") eqn:Hv.
      * apply String.eqb_eq in Hv. rewrite filter_cons_False by (rewrite Hv; auto).
        reflexivity.
      * apply String.eqb_neq in Hv. rewrite filter_cons_True by exact Hv. reflexivity.
Qed.

Lemma scanCpu_cache lines : forall st st',
  scanCpu lines st = Ok st' ->
  (forall v, v ∈ valuesOf "cache size" lines -> ~ cacheForm v) ->
  Cache (res st') = Cache (res st).
Proof.
  induction lines as [|text lines IH]; intros st st' E Hno; cbn [scanCpu] in E.
  - inversion E; reflexivity.
  - destruct (scanCpuLine text st) as [st1|] eqn:E1; [|discriminate].
    cbn [mbind Result_bind] in E.
    rewrite (valuesOf_cons "cache size" text lines) in Hno.
    destruct (scanCpuLine_model_cache _ _ _ E1) as [_ [H1|(v & Hv & Hf)]].
    + rewrite (IH st1 st' E); [exact H1|].
      intros v Hv. apply Hno, elem_of_app. right. exact Hv.
    + exfalso. apply (Hno v); [|exact Hf]. apply elem_of_app. left. exact Hv.
Qed.

(** C6.  The cleaning of a model name is the collapse of every run of two
    or more spaces to one space followed by the replacement of the first
    "- " by "-"; it turns "Intel(R)  Xeon(R)- Platinum" into
    "Intel(R) Xeon(R)-Platinum"; and the [Model] that [GetCpuInfo] reports
    for a dump is the first model name of the dump that is not empty once
    cleaned: the cleaned value of the first "model name" line when that is
    not empty, whatever model names follow. *)
Theorem model_name_normalized (v : string) :
  cpuRegExtraSpace_ReplaceAll v = collapseSpaces v /\
  cleanModel v = ReplaceFirst (collapseSpaces v) "- " "-" /\
  cleanModel "Intel(R)  Xeon(R)- Platinum" = "Intel(R) Xeon(R)-Platinum" /\
  (forall lines n,
     forallb line_ok lines = true ->
     exists r, GetCpuInfo (Some lines) n = Ok r /\ Model r = firstModel lines) /\
  (forall pre rest,
     valuesOf "model name" pre = [] -> cleanModel v <> "" ->
     firstModel (pre ++ kv "model name" v :: rest) = cleanModel v).
Proof.
  assert (cpuRegExtraSpace_ReplaceAll v = collapseSpaces v) as Hc
    by apply replaceSpaceRuns_collapse.
  split; [exact Hc|]. split; [unfold cleanModel; rewrite Hc; reflexivity|].
  split; [vm_compute; reflexivity|]. split.
  - intros lines n Hok. unfold GetCpuInfo.
    destruct (scanCpu_sets lines
                {| res := emptyCpuInfo (wrap64 n); cpu := ∅; core := ∅; cpuID := "" |} Hok)
      as (st' & E & _).
    rewrite E. eexists. split; [reflexivity|]. cbn.
    apply (scanCpu_model lines _ st' E).
  - intros pre rest Hpre Hne. unfold firstModel.
    rewrite valuesOf_app, Hpre, (valuesOf_cons "model name" (kv "model name" v) rest).
    change (valuesOf "model name" [kv "model name" v]) with [v].
    cbn [fmap list_fmap app]. rewrite filter_cons_True by exact Hne. reflexivity.
Qed.

Lemma model_name_normalized_witness :
  exists r, GetCpuInfo (Some dump_two_cores) 1 = Ok r /\
            Model r = cleanModel "Intel(R)  Xeon(R)- Platinum".
Proof.
  destruct (model_name_normalized "Intel(R)  Xeon(R)- Platinum") as (_ & _ & _ & H & F).
  destruct (H dump_two_cores 1) as (r & E & Hm); [vm_compute; reflexivity|].
  exists r. split; [exact E|]. rewrite Hm.
  apply (F [kv "processor" "0"; kv "vendor_id" "GenuineIntel"]
           (skipn 3 dump_two_cores)); [vm_compute; reflexivity|].
  vm_compute. discriminate.
Defined.

(** Only the first "- " is replaced. *)
Example cleanModel_first_hyphen_only : cleanModel "a-  b- c" = "a-b- c".
Proof. vm_compute; reflexivity. Qed.

Lemma isDigit_range c : isDigit c = true -> 0 <= byte c - 48 <= 9.
Proof. unfold isDigit. lia. Qed.

Lemma decimalFrom_ge ds : forall n,
  allDigits ds = true -> 0 <= n -> n <= decimalFrom n ds.
Proof.
  induction ds as [|c ds IH]; intros n Ha Hn; cbn [decimalFrom]; [lia|].
  rewrite allDigits_cons in Ha. apply andb_true_iff in Ha as [Hc Ha].
  apply isDigit_range in Hc.
  specialize (IH (n * 10 + (byte c - 48)) Ha). lia.
Qed.

Lemma parseUintLoop_decimal ds : forall n,
  allDigits ds = true -> 0 <= n -> decimalFrom n ds <= MaxUint64 ->
  parseUintLoop ds n = (decimalFrom n ds, None).
Proof.
  induction ds as [|c ds IH]; intros n Ha Hn Hmax; [reflexivity|].
  rewrite allDigits_cons in Ha. apply andb_true_iff in Ha as [Hc Ha].
  pose proof (isDigit_range c Hc) as Hr.
  cbn [decimalFrom] in *.
  pose proof (decimalFrom_ge ds (n * 10 + (byte c - 48)) Ha ltac:(lia)) as Hge.
  cbn [parseUintLoop]. rewrite Hc.
  assert ((MaxUint64 / 10 + 1 <=? n) = false) as ->.
  { apply Z.leb_gt. unfold MaxUint64 in *. change (2 ^ 64 - 1) with 18446744073709551615 in *.
    change (18446744073709551615 / 10 + 1) with 1844674407370955162. lia. }
  assert ((MaxUint64 <? n * 10 + (byte c - 48)) = false) as -> by (apply Z.ltb_ge; lia).
  apply IH; [exact Ha | lia | exact Hmax].
Qed.

Lemma ParseUint_decimal ds :
  ds <> "" -> allDigits ds = true -> decimal ds <= MaxUint64 ->
  ParseUint ds = (decimal ds, None).
Proof.
  intros Hne Ha Hmax. destruct ds as [|c ds]; [contradiction|].
  apply (parseUintLoop_decimal (String c ds) 0 Ha); [lia | exact Hmax].
Qed.

Lemma scanCpuLine_cache_size v st :
  Cache (res st) = 0 ->
  scanCpuLine (kv "cache size" v) st =
  match cpuRegCacheSize_FindStringSubmatch v with
  | Some m =>
      digits ← index m 1;
      match ParseUint digits with
      | (cache, None) => Ok (withRes st (setCache (res st) cache))
      | (_, Some _) => Ok st
      end
  | None => Ok st
  end.
Proof.
  intros Hc. unfold scanCpuLine.
  change (cpuRegTwoColumns_Split2 (kv "cache size" v)) with ["cache size"; v].
  cbn. rewrite Hc. reflexivity.
Qed.

(** C7.  For a dump with one "cache size" line of value [v], [GetCpuInfo]
    returns a record whose [Cache] is 0 unless [v] has the literal form
    [<digits> KB], and is the number the digits write (when it fits 64
    bits) if it has; for any dump none of whose "cache size" values has
    that form, [Cache] is 0; "8192 KB" gives 8192 and "8MB" gives 0. *)
Theorem cache_size_literal_form :
  (forall lines n,
     forallb line_ok lines = true ->
     (forall v, v ∈ valuesOf "cache size" lines -> ~ cacheForm v) ->
     exists r, GetCpuInfo (Some lines) n = Ok r /\ Cache r = 0) /\
  (forall v n, exists r,
     GetCpuInfo (Some [kv "cache size" v]) n = Ok r /\
     (~ cacheForm v -> Cache r = 0) /\
     (forall ds, v = ds ++ " KB" -> ds <> "" -> allDigits ds = true ->
                 decimal ds <= MaxUint64 -> Cache r = decimal ds)) /\
  (forall n, exists r, GetCpuInfo (Some [kv "cache size" "8192 KB"]) n = Ok r /\
                       Cache r = 8192) /\
  (forall n, exists r, GetCpuInfo (Some [kv "cache size" "8MB"]) n = Ok r /\
                       Cache r = 0).
Proof.
  split; [|split; [|split; intros n; eexists; (split; [reflexivity|reflexivity])]].
  { intros lines n Hok Hno. unfold GetCpuInfo.
    destruct (scanCpu_sets lines
                {| res := emptyCpuInfo (wrap64 n); cpu := ∅; core := ∅; cpuID := "" |} Hok)
      as (st' & E & _).
    rewrite E. eexists. split; [reflexivity|]. cbn.
    apply (scanCpu_cache lines _ st' E Hno). }
  intros v n. unfold GetCpuInfo. cbn [scanCpu].
  rewrite scanCpuLine_cache_size by reflexivity.
  destruct (cpuRegCacheSize_FindStringSubmatch v) as [m|] eqn:Em.
  - apply FindStringSubmatch_shape in Em as (ds & -> & Hspan & Hne).
    destruct (spanDigits_spec v ds " KB" Hspan) as [Hv Ha].
    cbn [index lookup list_lookup mbind Result_bind].
    destruct (ParseUint ds) as [c [e|]] eqn:Ep; cbn;
      (eexists; split; [reflexivity|]); cbn; split.
    + reflexivity.
    + intros ds' Hv' Hne' Ha' Hmax.
      rewrite Hv', (spanDigits_KB ds' Ha') in Hspan. injection Hspan as <-.
      rewrite (ParseUint_decimal ds' Hne' Ha' Hmax) in Ep. discriminate.
    + intros Hnot. exfalso. apply Hnot. exists ds. auto.
    + intros ds' Hv' Hne' Ha' Hmax.
      rewrite Hv', (spanDigits_KB ds' Ha') in Hspan. injection Hspan as <-.
      rewrite (ParseUint_decimal ds' Hne' Ha' Hmax) in Ep. congruence.
  - cbn. eexists. split; [reflexivity|]. cbn. split; [reflexivity|].
    intros ds Hv Hne Ha _. exfalso.
    unfold cpuRegCacheSize_FindStringSubmatch in Em.
    rewrite Hv, (spanDigits_KB ds Ha) in Em.
    destruct ds; [contradiction|discriminate].
Qed.

Lemma cache_size_literal_form_witness :
  exists r, GetCpuInfo (Some [kv "cache size" "512 KB"]) 1 = Ok r /\ Cache r = decimal "512".
Proof.
  destruct cache_size_literal_form as (_ & H & _ & _).
  destruct (H "512 KB" 1) as (r & E & _ & Hd).
  exists r. split; [exact E|].
  apply (Hd "512"); [reflexivity | discriminate | reflexivity | vm_compute; discriminate].
Defined.

(** A value of the literal form whose number does not fit 64 bits leaves
    the cache at 0 as well. *)
Example cache_size_overflow :
  exists r, GetCpuInfo (Some [kv "cache size" "99999999999999999999 KB"]) 1 = Ok r /\
            Cache r = 0.
Proof. eexists. split; reflexivity. Qed.

(** ** The snapshot *)

Lemma tally_nonneg fields : forall i user idle total u d t,
  0 <= user -> 0 <= idle -> 0 <= total ->
  tally fields i (user, idle, total) = (u, d, t) ->
  0 <= u /\ 0 <= d /\ 0 <= t.
Proof.
  induction fields as [|f fields IH]; intros i user idle total u d t Hu Hd Ht; cbn.
  - intros [= <- <- <-]. auto.
  - apply IH.
    + destruct (Nat.eqb i 1); [apply ParseUint_nonneg | exact Hu].
    + destruct (Nat.eqb i 4); [apply ParseUint_nonneg | exact Hd].
    + unfold wrap64. apply Z.mod_pos_bound. lia.
Qed.

Lemma cpuLines_nonneg lines : forall u d t,
  cpuLines lines = Ok (u, d, t) -> 0 <= u /\ 0 <= d /\ 0 <= t.
Proof.
  induction lines as [|line lines IH]; intros u d t; cbn.
  - intros [= <- <- <-]. lia.
  - destruct (index (Fields line) 0) as [f0|]; cbn; [|discriminate].
    destruct (String.eqb f0 "cpu"); [|apply IH].
    intros [= E]. apply tally_nonneg in E; auto; lia.
Qed.

Lemma CpuUsage_nonneg contents u d t :
  CpuUsage contents = Ok (u, d, t) -> 0 <= u /\ 0 <= d /\ 0 <= t.
Proof.
  unfold CpuUsage. destruct (0 <? String.length contents)%nat.
  - apply cpuLines_nonneg.
  - intros [= <- <- <-]. lia.
Qed.

(** C1, at the failing input.  With /proc/stat missing or empty the guard
    of [CpuUsage] gives the counters (0, 0, 0); [GetSystemInfo] divides by
    the zero total all the same, and both ratios of the snapshot are NaN,
    not zero. *)
Lemma cpu_ratios_nan_when_total_zero :
  CpuUsage "" = Ok (0, 0, 0) /\
  exists i, GetSystemInfo (sources_with_stat "") = Ok i /\
            CpuUser i = S754_nan /\ CpuFree i = S754_nan /\
            ~ is_zero (CpuUser i) /\ ~ is_zero (CpuFree i).
Proof.
  split; [reflexivity|]. eexists. split; [reflexivity|]. cbn.
  split; [reflexivity|]. split; [reflexivity|].
  split; intros [H|H]; discriminate H.
Qed.

(** Whenever [CpuUsage] gives its three counters, [GetSystemInfo] returns
    a snapshot whose [CpuUser] and [CpuFree] are the [float64] quotients
    user/total and idle/total. *)
Lemma GetSystemInfo_cpu_quotients (S : Sources) (user idle total : Z) :
  CpuUsage (proc_stat S) = Ok (user, idle, total) ->
  exists i, GetSystemInfo S = Ok i /\
    CpuUser i = float64_div (float64_of_uint64 user) (float64_of_uint64 total) /\
    CpuFree i = float64_div (float64_of_uint64 idle) (float64_of_uint64 total).
Proof.
  intros E. unfold GetSystemInfo. rewrite E. cbn [mbind Result_bind].
  destruct (DiskUsage (disk_root S)) as [[du df] dt].
  destruct (MemoryUsage (proc_meminfo S) (virtual_memory S) true) as [[mu mf] mt].
  eexists. split; [reflexivity|]. cbn [CpuUser CpuFree].
  split; reflexivity.
Qed.

(** The testable property: user 10 of a total of 100 is the [float64]
    nearest to 0.1, that is 7205759403792794 * 2^-56, and idle 0 is 0. *)
Example cpu_ratio_one_tenth :
  exists i, GetSystemInfo (sources_with_stat "cpu 10 0 0 0 90") = Ok i /\
    CpuUser i = S754_finite false 7205759403792794 (-56) /\
    CpuFree i = S754_zero false.
Proof. eexists. split; [reflexivity|]. split; vm_compute; reflexivity. Qed.

(** A wrapped sum: the total is zero and the user counter is not, the user
    ratio is +Inf. *)
Example cpu_ratio_infinite :
  CpuUsage "cpu 18446744073709551615 1" = Ok (18446744073709551615, 0, 0) /\
  exists i, GetSystemInfo (sources_with_stat "cpu 18446744073709551615 1") = Ok i /\
    CpuUser i = S754_infinity false /\ CpuFree i = S754_nan.
Proof.
  split; [vm_compute; reflexivity|].
  eexists. split; [reflexivity|]. split; vm_compute; reflexivity.
Qed.

(** C4, at the failing input.  When /proc/stat holds a line without
    fields before any "cpu" line (here: nothing but a newline, which
    [strings.Split] cuts into two empty lines), [CpuUsage] panics at
    [fields[0]], and so does [GetSystemInfo], whatever the other sources
    are. *)
Theorem GetSystemInfo_blank_line_panics (m : MemStats) (disk vm : option Usage)
    (meminfo : option string) (host os : string) (uptime goroutines cpus : Z) :
  GetSystemInfo {| mstat := m; proc_stat := String LF "";
                   disk_root := disk; proc_meminfo := meminfo;
                   virtual_memory := vm; Hostname := host; GOOS := os;
                   ServiceUptime := uptime; NumGoroutine := goroutines;
                   NumCPU := cpus |} = Panic.
Proof. reflexivity. Qed.

(** The same with a /proc/stat that has lines but no "cpu" line: the scan
    reaches the empty piece after the last newline. *)
Example CpuUsage_no_cpu_line_panics :
  CpuUsage ("intr 5" ++ String LF "") = Panic.
Proof. vm_compute; reflexivity. Qed.

(** With /proc/stat missing, or with a "cpu" line first, there is a
    snapshot. *)
Example GetSystemInfo_without_stat :
  exists i, GetSystemInfo (sources_with_stat "") = Ok i.
Proof. eexists. reflexivity. Qed.

(** * Further properties of os.go *)

(** ** CpuUsage *)

Lemma wrap64_range z : 0 <= wrap64 z < 2 ^ 64.
Proof. unfold wrap64. apply Z.mod_pos_bound. lia. Qed.

Lemma wrap64_small z : 0 <= z < 2 ^ 64 -> wrap64 z = z.
Proof. unfold wrap64. apply Z.mod_small. Qed.

Lemma wrap64_add_l a b : wrap64 (wrap64 a + b) = wrap64 (a + b).
Proof. unfold wrap64. apply Zplus_mod_idemp_l. Qed.

Lemma tally_spec fields : forall i user idle total,
  0 <= total < 2 ^ 64 ->
  tally fields i (user, idle, total) =
  (if (i <=? 1)%nat then nth (1 - i) (tickValues fields) user else user,
   if (i <=? 4)%nat then nth (4 - i) (tickValues fields) idle else idle,
   wrap64 (total + sumZ (tickValues fields))).
Proof.
  induction fields as [|f fields IH]; intros i user idle total Ht.
  - cbn. rewrite Z.add_0_r, (wrap64_small total Ht).
    destruct (1 - i)%nat, (4 - i)%nat, (i <=? 1)%nat, (i <=? 4)%nat; reflexivity.
  - cbn [tally]. rewrite IH by apply wrap64_range.
    cbn [tickValues fmap list_fmap sumZ foldr].
    fold (tickValues fields). fold (sumZ (tickValues fields)).
    rewrite wrap64_add_l, Z.add_assoc.
    apply f_equal2; [apply f_equal2|reflexivity].
    + destruct i as [|[|i]]; reflexivity.
    + destruct i as [|[|[|[|[|i]]]]]; reflexivity.
Qed.

Lemma Split_cons s sep : exists x xs, Split s sep = x :: xs.
Proof.
  induction s as [|c s (x & xs & IH)]; cbn; [eauto|].
  destruct (Ascii.eqb c sep); [eauto|]. rewrite IH. eauto.
Qed.

Lemma tickValues_nonneg fields : Forall (fun v => 0 <= v) (tickValues fields).
Proof.
  induction fields as [|f fields IH]; constructor; [apply ParseUint_nonneg | exact IH].
Qed.

Lemma sumZ_cons x l : sumZ (x :: l) = x + sumZ l.
Proof. reflexivity. Qed.

Lemma sumZ_nonneg l : Forall (fun v => 0 <= v) l -> 0 <= sumZ l.
Proof. induction 1; [cbn; lia|]. rewrite sumZ_cons. lia. Qed.

Lemma nth_le_sumZ l : Forall (fun v => 0 <= v) l -> forall i, nth i l 0 <= sumZ l.
Proof.
  induction 1 as [|v l Hv Hl IH]; intros i; [destruct i; cbn; lia|].
  pose proof (sumZ_nonneg l Hl). rewrite sumZ_cons. destruct i; cbn [nth]; [lia|].
  specialize (IH i). lia.
Qed.

Lemma nth_pair_le_sumZ l :
  Forall (fun v => 0 <= v) l -> nth 0 l 0 + nth 3 l 0 <= sumZ l.
Proof.
  intros H. destruct H as [|a l Ha H]; [cbn; lia|].
  destruct H as [|b l Hb H]; [cbn; lia|].
  destruct H as [|c l Hc H]; [cbn; lia|].
  pose proof (nth_le_sumZ l H 0%nat). rewrite !sumZ_cons. cbn [nth]. lia.
Qed.

(** The counters of a /proc/stat whose first line is a "cpu" line: only
    that line is read.  [user] is the first number after "cpu", [idle] the
    fourth, [total] the sum of all of them modulo 2^64; a field that is not
    a number counts as 0. *)
Theorem CpuUsage_first_cpu_line (contents first : string) (more fs : list string) :
  Split contents LF = first :: more ->
  Fields first = "cpu" :: fs ->
  CpuUsage contents =
  Ok (nth 0 (tickValues fs) 0, nth 3 (tickValues fs) 0, wrap64 (sumZ (tickValues fs))).
Proof.
  intros Hs Hf. unfold CpuUsage.
  destruct contents as [|c contents].
  - cbn in Hs. injection Hs as <- <-. discriminate Hf.
  - cbn [String.length Nat.ltb Nat.leb]. rewrite Hs. cbn [cpuLines]. rewrite Hf.
    cbn. rewrite tally_spec by lia. reflexivity.
Qed.

Lemma CpuUsage_first_cpu_line_witness :
  CpuUsage ("cpu  3 x 5 7" ++ String LF "garbage") =
  Ok (nth 0 (tickValues ["3"; "x"; "5"; "7"]) 0,
      nth 3 (tickValues ["3"; "x"; "5"; "7"]) 0,
      wrap64 (sumZ (tickValues ["3"; "x"; "5"; "7"]))).
Proof.
  apply (CpuUsage_first_cpu_line _ "cpu  3 x 5 7" ["garbage"]); reflexivity.
Defined.

(** When the numbers of the "cpu" line do not overflow 64 bits in sum, the
    counters are consistent: user + idle <= total, so both ratios of the
    snapshot lie between 0 and 1. *)
Theorem CpuUsage_counters_bounded (contents first : string) (more fs : list string) :
  Split contents LF = first :: more ->
  Fields first = "cpu" :: fs ->
  sumZ (tickValues fs) < 2 ^ 64 ->
  exists user idle total,
    CpuUsage contents = Ok (user, idle, total) /\
    0 <= user /\ 0 <= idle /\ user + idle <= total /\
    total = sumZ (tickValues fs).
Proof.
  intros Hs Hf Hsum.
  pose proof (tickValues_nonneg fs) as Hnn.
  pose proof (sumZ_nonneg _ Hnn) as H0.
  pose proof (nth_pair_le_sumZ _ Hnn) as Hle.
  pose proof (nth_le_sumZ _ Hnn 0%nat) as Hu.
  pose proof (nth_le_sumZ _ Hnn 3%nat) as Hd.
  assert (0 <= nth 0 (tickValues fs) 0) as Hu0.
  { destruct (nth_in_or_default 0 (tickValues fs) 0) as [Hin| ->]; [|lia].
    rewrite Forall_forall in Hnn. apply Hnn, list_elem_of_In, Hin. }
  assert (0 <= nth 3 (tickValues fs) 0) as Hd0.
  { destruct (nth_in_or_default 3 (tickValues fs) 0) as [Hin| ->]; [|lia].
    rewrite Forall_forall in Hnn. apply Hnn, list_elem_of_In, Hin. }
  eexists _, _, _. split; [apply (CpuUsage_first_cpu_line _ _ _ _ Hs Hf)|].
  rewrite wrap64_small by lia. auto.
Qed.

Lemma CpuUsage_counters_bounded_witness :
  exists user idle total,
    CpuUsage "cpu 10 0 0 0 90" = Ok (user, idle, total) /\
    0 <= user /\ 0 <= idle /\ user + idle <= total /\
    total = sumZ (tickValues ["10"; "0"; "0"; "0"; "90"]).
Proof.
  apply (CpuUsage_counters_bounded "cpu 10 0 0 0 90" "cpu 10 0 0 0 90" []
           ["10"; "0"; "0"; "0"; "90"]); [reflexivity | reflexivity |].
  vm_compute. reflexivity.
Defined.

Lemma Split_snoc_LF body :
  Split (body ++ String LF "") LF = (Split body LF ++ [""])%list.
Proof.
  induction body as [|c body IH]; [reflexivity|].
  change (String c body ++ String LF "") with (String c (body ++ String LF "")).
  cbn [Split]. rewrite IH. destruct (Ascii.eqb c LF); [reflexivity|].
  destruct (Split_cons body LF) as (x & xs & ->). reflexivity.
Qed.

Lemma cpuLines_no_cpu_blank lines :
  forallb (fun l => negb (isCpuLine l)) lines = true ->
  cpuLines (lines ++ [""]) = Panic.
Proof.
  induction lines as [|l lines IH]; intros H; [reflexivity|].
  cbn in H. apply andb_true_iff in H as [Hl H].
  cbn [app cpuLines]. unfold isCpuLine in Hl.
  destruct (Fields l) as [|f0 fs]; [reflexivity|].
  cbn. apply negb_true_iff in Hl. rewrite Hl. apply IH, H.
Qed.

(** A /proc/stat that ends in a newline and has no line whose first field
    is "cpu" makes [CpuUsage] panic: the scan runs into the empty piece
    after the last newline (or into a blank line before it) and indexes
    [fields[0]]. *)
Theorem CpuUsage_no_cpu_line_panics_always (body : string) :
  forallb (fun l => negb (isCpuLine l)) (Split body LF) = true ->
  CpuUsage (body ++ String LF "") = Panic.
Proof.
  intros H. unfold CpuUsage.
  assert ((0 <? String.length (body ++ String LF ""))%nat = true) as ->
    by (destruct body; reflexivity).
  rewrite Split_snoc_LF. apply cpuLines_no_cpu_blank, H.
Qed.

Lemma CpuUsage_no_cpu_line_panics_always_witness :
  CpuUsage (("intr 5" ++ String LF "ctxt 7") ++ String LF "") = Panic.
Proof.
  apply (CpuUsage_no_cpu_line_panics_always ("intr 5" ++ String LF "ctxt 7")).
  vm_compute. reflexivity.
Defined.

(** ** DiskUsage and MemoryUsage *)

(** For a disk reading with free <= total, used + free = total; for an
    inconsistent reading with free > total the subtraction wraps around
    and used is 2^64 - (free - total); without a reading all three are 0. *)
Theorem DiskUsage_consistency (d : Usage) :
  0 <= Free d < 2 ^ 64 -> 0 <= Total d < 2 ^ 64 ->
  DiskUsage None = (0, 0, 0) /\
  exists used, DiskUsage (Some d) = (used, Free d, Total d) /\
    0 <= used < 2 ^ 64 /\
    (Free d <= Total d -> used + Free d = Total d) /\
    (Total d < Free d -> used = 2 ^ 64 - (Free d - Total d)).
Proof.
  intros Hf Ht. split; [reflexivity|].
  eexists. split; [reflexivity|]. split; [apply wrap64_range|]. split; intros H.
  - rewrite wrap64_small by lia. lia.
  - unfold wrap64.
    rewrite <- (Z.mod_add _ 1) by lia. rewrite Z.mod_small by lia. lia.
Qed.

Lemma DiskUsage_consistency_witness :
  DiskUsage None = (0, 0, 0) /\
  exists used, DiskUsage (Some {| Total := 100; Free := 40 |}) = (used, 40, 100) /\
    0 <= used < 2 ^ 64 /\
    (40 <= 100 -> used + 40 = 100) /\
    (100 < 40 -> used = 2 ^ 64 - (40 - 100)).
Proof.
  apply (DiskUsage_consistency {| Total := 100; Free := 40 |}); cbn; lia.
Defined.

Lemma memLines_range lines : forall free total f t,
  0 <= free < 2 ^ 64 -> 0 <= total < 2 ^ 64 ->
  memLines lines free total = (f, t) ->
  0 <= f < 2 ^ 64 /\ 0 <= t < 2 ^ 64.
Proof.
  induction lines as [|l lines IH]; intros free total f t Hf Ht; cbn.
  - intros [= <- <-]. auto.
  - destruct (Fields l) as [|f0 [|f1 [|f2 [|]]]]; try (apply IH; assumption).
    destruct (HasPrefix f0 "MemTotal"); [apply IH; [assumption|apply wrap64_range]|].
    destruct (HasPrefix f0 "MemFree"); apply IH; try assumption. apply wrap64_range.
Qed.

(** [MemoryUsage(true)]: used is total - free modulo 2^64, so that
    used + free = total whenever /proc/meminfo gives MemFree <= MemTotal;
    when MemTotal is missing (total 0) and MemFree is not, used wraps to
    2^64 - free; when the file cannot be read all three are 0. *)
Theorem MemoryUsage_consistency (meminfo : option string) (vm : option Usage) :
  exists used free total,
    MemoryUsage meminfo vm true = (used, free, total) /\
    0 <= used < 2 ^ 64 /\ 0 <= free < 2 ^ 64 /\ 0 <= total < 2 ^ 64 /\
    (free <= total -> used + free = total) /\
    (total < free -> used = 2 ^ 64 - (free - total)) /\
    (meminfo = None -> used = 0 /\ free = 0 /\ total = 0).
Proof.
  destruct meminfo as [contents|]; cbn.
  - destruct (memLines (Split contents LF) 0 0) as [free total] eqn:E.
    destruct (memLines_range _ 0 0 free total ltac:(lia) ltac:(lia) E) as [Hf Ht].
    exists (wrap64 (total - free)), free, total.
    split; [reflexivity|]. split; [apply wrap64_range|].
    split; [exact Hf|]. split; [exact Ht|]. split; [|split]; intros H.
    + rewrite wrap64_small by lia. lia.
    + unfold wrap64. rewrite <- (Z.mod_add _ 1) by lia.
      rewrite Z.mod_small by lia. lia.
    + discriminate.
  - exists 0, 0, 0. repeat split; lia.
Qed.

Lemma memLines_app pre post : forall free total,
  memLines (pre ++ post) free total =
  let '(f, t) := memLines pre free total in memLines post f t.
Proof.
  induction pre as [|l pre IH]; intros free total; cbn [app memLines].
  - reflexivity.
  - destruct (Fields l) as [|f0 [|f1 [|f2 [|]]]]; try apply IH.
    destruct (HasPrefix f0 "MemTotal"); [apply IH|].
    destruct (HasPrefix f0 "MemFree"); apply IH.
Qed.

Lemma Split_noLF s : noLF s = true -> Split s LF = [s].
Proof.
  induction s as [|c s IH]; [reflexivity|]. cbn.
  intros H. apply andb_true_iff in H as [Hc Hs]. apply negb_true_iff in Hc.
  rewrite Hc, (IH Hs). reflexivity.
Qed.

Lemma Split_line_LF l rest :
  noLF l = true -> Split (l ++ String LF rest) LF = l :: Split rest LF.
Proof.
  induction l as [|c l IH]; intros H.
  - cbn. reflexivity.
  - cbn in H. apply andb_true_iff in H as [Hc Hl]. apply negb_true_iff in Hc.
    change (String c l ++ String LF rest) with (String c (l ++ String LF rest)).
    cbn [Split]. rewrite Hc, (IH Hl). reflexivity.
Qed.

(** Cutting the joined lines at the newlines gives the lines back. *)
Lemma Split_joinLines lines :
  forallb noLF lines = true ->
  Split (joinLines lines) LF = match lines with [] => [""] | _ => lines end.
Proof.
  induction lines as [|l lines IH]; intros H; [reflexivity|].
  cbn in H. apply andb_true_iff in H as [Hl H].
  destruct lines as [|l' lines]; [apply (Split_noLF l Hl)|].
  change (joinLines (l :: l' :: lines))
    with (l ++ String LF (joinLines (l' :: lines))).
  rewrite (Split_line_LF l _ Hl), (IH H). reflexivity.
Qed.

Lemma memLines_skip l free total :
  length (Fields l) <> 3%nat -> memLines [l] free total = (free, total).
Proof.
  intros H. cbn. destruct (Fields l) as [|f0 [|f1 [|f2 [|]]]]; try reflexivity.
  contradiction H. reflexivity.
Qed.

(** A line of /proc/meminfo that does not have exactly three fields (such
    as "HugePages_Total:       0", or "MemTotal: 16000" without its unit)
    is ignored: with or without it the result is the same. *)
Theorem MemoryUsage_ignores_line (pre post : list string) (l : string)
    (vm : option Usage) :
  forallb noLF (pre ++ l :: post) = true ->
  length (Fields l) <> 3%nat ->
  MemoryUsage (Some (joinLines (pre ++ l :: post))) vm true =
  MemoryUsage (Some (joinLines (pre ++ post))) vm true.
Proof.
  intros Hn Hl. unfold MemoryUsage.
  assert (forallb noLF (pre ++ post) = true) as Hn'.
  { rewrite forallb_app in *. cbn in Hn.
    apply andb_true_iff in Hn as [H1 H2]. apply andb_true_iff in H2 as [_ H2].
    rewrite H1, H2. reflexivity. }
  rewrite (Split_joinLines _ Hn), (Split_joinLines _ Hn').
  assert (memLines (pre ++ l :: post) 0 0 = memLines (pre ++ post) 0 0) as Hsame.
  { rewrite !memLines_app. destruct (memLines pre 0 0) as [f t].
    change (l :: post) with ([l] ++ post)%list.
    rewrite memLines_app, (memLines_skip l f t Hl). reflexivity. }
  assert (forall ls : list string,
            memLines (match ls with [] => [""] | _ => ls end) 0 0 = memLines ls 0 0)
    as Hnil by (intros [|a la]; reflexivity).
  rewrite !Hnil, Hsame. reflexivity.
Qed.

Lemma MemoryUsage_ignores_line_witness :
  MemoryUsage (Some (joinLines (["MemTotal:  16000 kB"] ++ "MemTotal: 99" ::
                                 ["MemFree: 4000 kB"]))) None true =
  MemoryUsage (Some (joinLines (["MemTotal:  16000 kB"] ++ ["MemFree: 4000 kB"])))
              None true.
Proof.
  apply (MemoryUsage_ignores_line ["MemTotal:  16000 kB"] ["MemFree: 4000 kB"]
           "MemTotal: 99" None); [reflexivity|].
  vm_compute. discriminate.
Defined.

(** ** GetSystemInfo *)

(** The pause the snapshot reports is entry (NumGC - 1) mod 256 of the
    circular buffer [PauseNs], the most recent one; the wrap-around of the
    [uint32] sum NumGC + 255 does not change the index, which is 255 when
    no collection has run. *)
Theorem GetSystemInfo_last_pause (S : Sources) (i : SystemInfo) :
  0 <= NumGC (mstat S) < 2 ^ 32 ->
  GetSystemInfo S = Ok i ->
  SysPauseNs i = PauseNs (mstat S) ((NumGC (mstat S) - 1) mod 256) /\
  0 <= (NumGC (mstat S) - 1) mod 256 < 256.
Proof.
  intros Hn. unfold GetSystemInfo.
  destruct (CpuUsage (proc_stat S)) as [[[u d] t]|]; cbn [mbind Result_bind];
    [|discriminate].
  destruct (DiskUsage (disk_root S)) as [[du df] dt].
  destruct (MemoryUsage (proc_meminfo S) (virtual_memory S) true) as [[mu mf] mt].
  cbn. intros [= <-]. cbn. split; [|apply Z.mod_pos_bound; lia].
  f_equal.
  change (2 ^ 32) with (256 * 16777216).
  rewrite Z.rem_mul_r by lia.
  rewrite Z.mul_comm, Z.mod_add by lia. rewrite Z.mod_mod by lia.
  replace (NumGC (mstat S) + 255) with (NumGC (mstat S) - 1 + 1 * 256) by lia.
  apply Z.mod_add. lia.
Qed.

Lemma GetSystemInfo_last_pause_witness :
  exists i, GetSystemInfo (sources_with_stat "") = Ok i /\
    SysPauseNs i = PauseNs (mstat (sources_with_stat "")) ((0 - 1) mod 256).
Proof.
  eexists. split; [reflexivity|].
  apply (GetSystemInfo_last_pause (sources_with_stat "")); [cbn; lia | reflexivity].
Defined.

(** ** GetPidByPort, further *)

Lemma scanRecord_crash_iff P port dirs line pid :
  scanRecord P port dirs line pid = Crash <-> wf_record line = false.
Proof.
  unfold scanRecord, wf_record.
  destruct (length (Fields line) <? 10)%nat eqn:Hlen; cbn [orb].
  - split; intros H; discriminate H.
  - apply Nat.ltb_ge in Hlen.
    destruct (lookup_lt_is_Some_2 (Fields line) 3%nat) as [state Hs]; [lia|].
    destruct (lookup_lt_is_Some_2 (Fields line) 1%nat) as [loc Hl]; [lia|].
    destruct (lookup_lt_is_Some_2 (Fields line) 9%nat) as [inode Hi]; [lia|].
    rewrite Hs, Hl, Hi.
    destruct (String.eqb state "0A"); cbn [negb orb].
    + destruct (Split loc ":" !! 1%nat) as [hex|]; [|split; reflexivity].
      destruct (negb (Hex2Dec P hex =? port)); [split; intros H; discriminate H|].
      destruct (0 <? getPidByInode P inode dirs); split; intros H; discriminate H.
    + split; intros H; discriminate H.
Qed.

(** The loop body panics on a line exactly when the line is not well
    formed: ten fields or more, the listening state "0A", and a local
    address without ":" (so that [ipport[1]] is out of range); such a line
    right after the first line of the tcp table makes [GetPidByPort] panic
    for every port. *)
Theorem GetPidByPort_address_without_colon (P : Proc) (port : Z) (line : string) :
  (forall dirs pid, scanRecord P port dirs line pid = Crash <-> wf_record line = false) /\
  (forall hdr rest,
     ReadInArray P "/proc/net/tcp" = hdr :: line :: rest ->
     wf_record line = false ->
     GetPidByPort P port = Panic).
Proof.
  split; [intros dirs pid; apply scanRecord_crash_iff|].
  intros hdr rest Ht Hwf. unfold GetPidByPort. cbn [files scanFiles].
  rewrite Ht. cbn [slice_from1 scanTable].
  rewrite (proj2 (scanRecord_crash_iff P port (Glob P) line 0) Hwf). reflexivity.
Qed.

Lemma GetPidByPort_address_without_colon_witness :
  GetPidByPort
    (withTable machine777 "/proc/net/tcp"
       [header; "0: 0100007F 0:0 0A 0:0 0:0 0 0 0 12345"]) 8080 = Panic.
Proof.
  destruct (GetPidByPort_address_without_colon
              (withTable machine777 "/proc/net/tcp"
                 [header; "0: 0100007F 0:0 0A 0:0 0:0 0 0 0 12345"]) 8080
              "0: 0100007F 0:0 0A 0:0 0:0 0 0 0 12345") as [_ H].
  apply (H header []); reflexivity.
Defined.

Lemma scanRecord_Return_listening P port dirs line pid q :
  scanRecord P port dirs line pid = Return q ->
  0 < q /\ exists inode, listening P port line = Some inode /\
                         getPidByInode P inode dirs = q.
Proof.
  unfold scanRecord, listening.
  destruct (length (Fields line) <? 10)%nat; [discriminate|].
  destruct (Fields line !! 3%nat) as [state|]; [|discriminate].
  destruct (Fields line !! 1%nat) as [loc|]; [|discriminate].
  destruct (Fields line !! 9%nat) as [inode|]; [|discriminate].
  destruct (String.eqb state "0A"); [|discriminate]. cbn [negb andb].
  destruct (Split loc ":" !! 1%nat) as [hex|]; [|discriminate].
  destruct (Hex2Dec P hex =? port); [|discriminate]. cbn [negb].
  destruct (0 <? getPidByInode P inode dirs) eqn:E; [|discriminate].
  intros [= <-]. split; [lia|]. exists inode. auto.
Qed.

Lemma scanRecord_Next P port dirs line pid p :
  scanRecord P port dirs line pid = Next p -> p = pid \/ p <= 0.
Proof.
  unfold scanRecord.
  destruct (length (Fields line) <? 10)%nat; [intros [= <-]; auto|].
  destruct (Fields line !! 3%nat) as [state|]; [|discriminate].
  destruct (Fields line !! 1%nat) as [loc|]; [|discriminate].
  destruct (Fields line !! 9%nat) as [inode|]; [|discriminate].
  destruct (negb (String.eqb state "0A")); [intros [= <-]; auto|].
  destruct (Split loc ":" !! 1%nat) as [hex|]; [|discriminate].
  destruct (negb (Hex2Dec P hex =? port)); [intros [= <-]; auto|].
  destruct (0 <? getPidByInode P inode dirs) eqn:E; [discriminate|].
  intros [= <-]. right. lia.
Qed.

Lemma scanTable_Next P port dirs lines : forall pid p,
  pid <= 0 -> scanTable P port dirs lines pid = Next p -> p <= 0.
Proof.
  induction lines as [|l lines IH]; intros pid p Hp; cbn.
  - intros [= <-]. exact Hp.
  - destruct (scanRecord P port dirs l pid) as [p1| |] eqn:E; try discriminate.
    apply IH. destruct (scanRecord_Next _ _ _ _ _ _ E) as [->|H]; assumption.
Qed.

Lemma scanTable_Return_listening P port dirs lines : forall pid q,
  scanTable P port dirs lines pid = Return q ->
  0 < q /\ exists line inode, line ∈ lines /\ listening P port line = Some inode /\
                              getPidByInode P inode dirs = q.
Proof.
  induction lines as [|l lines IH]; intros pid q; cbn; [discriminate|].
  destruct (scanRecord P port dirs l pid) as [p1|q1|] eqn:E; try discriminate.
  - intros H. destruct (IH p1 q H) as (Hq & line & inode & Hin & Hl & Hp).
    split; [exact Hq|]. exists line, inode. split; [right; exact Hin|auto].
  - intros [= <-]. destruct (scanRecord_Return_listening _ _ _ _ _ _ E)
      as (Hq & inode & Hl & Hp).
    split; [exact Hq|]. exists l, inode. split; [left|auto].
Qed.

Lemma scanFiles_result P port dirs fs : forall pid,
  pid <= 0 ->
  match scanFiles P port dirs fs pid with
  | Next p => p <= 0
  | Return q =>
      0 < q /\ exists f line inode,
        f ∈ fs /\ line ∈ tail (ReadInArray P f) /\
        listening P port line = Some inode /\ getPidByInode P inode dirs = q
  | Crash => True
  end.
Proof.
  induction fs as [|f fs IH]; intros pid Hp; cbn [scanFiles]; [exact Hp|].
  destruct (ReadInArray P f) as [|hdr body] eqn:Hr; cbn [slice_from1]; [exact I|].
  destruct (scanTable P port dirs body pid) as [p1|q1|] eqn:E; [| |exact I].
  - specialize (IH p1 (scanTable_Next _ _ _ _ _ _ Hp E)).
    destruct (scanFiles P port dirs fs p1); [exact IH| |exact I].
    destruct IH as (Hq & g & line & inode & Hg & Hrest). split; [exact Hq|].
    exists g, line, inode. split; [right; exact Hg|exact Hrest].
  - destruct (scanTable_Return_listening _ _ _ _ _ _ E) as (Hq & line & inode & Hin & Hl & Hpid).
    split; [exact Hq|]. exists f, line, inode. split; [left|].
    rewrite Hr. cbn [tail]. auto.
Qed.

(** A positive pid that [GetPidByPort] returns is always the match of the
    inode of a listening record on that port, read after the first line of
    one of the four tables: the resolver invents nothing, whatever the
    tables hold and whatever the helpers do. *)
Theorem GetPidByPort_positive_sound (P : Proc) (port pid : Z) :
  GetPidByPort P port = Ok pid -> 0 < pid ->
  exists f line inode,
    f ∈ files /\ line ∈ tail (ReadInArray P f) /\
    listening P port line = Some inode /\
    getPidByInode P inode (Glob P) = pid.
Proof.
  unfold GetPidByPort. intros H Hpos.
  pose proof (scanFiles_result P port (Glob P) files 0 ltac:(lia)) as R.
  destruct (scanFiles P port (Glob P) files 0) as [p|q|]; [| |discriminate].
  - injection H as ->. lia.
  - injection H as ->. apply R.
Qed.

Lemma GetPidByPort_positive_sound_witness :
  exists f line inode,
    f ∈ files /\ line ∈ tail (ReadInArray machine777 f) /\
    listening machine777 8080 line = Some inode /\
    getPidByInode machine777 inode (Glob machine777) = 777.
Proof.
  apply (GetPidByPort_positive_sound machine777 8080 777); [vm_compute; reflexivity|lia].
Defined.

(** When the scan of the tcp table returns a pid, [GetPidByPort] returns
    it without reading the other three tables: replacing any of them, even
    by no line at all (a missing file), changes nothing. *)
Theorem GetPidByPort_tcp_first (P : Proc) (port q : Z) (hdr : string)
    (body : list string) :
  ReadInArray P "/proc/net/tcp" = hdr :: body ->
  scanTable P port (Glob P) body 0 = Return q ->
  GetPidByPort P port = Ok q /\
  forall f ls, f <> "/proc/net/tcp" -> GetPidByPort (withTable P f ls) port = Ok q.
Proof.
  intros Ht Hs. split.
  - unfold GetPidByPort. cbn [files scanFiles]. rewrite Ht. cbn [slice_from1].
    rewrite Hs. reflexivity.
  - intros f ls Hf. unfold GetPidByPort. cbn [files scanFiles].
    cbn [ReadInArray withTable Glob].
    assert (String.eqb "/proc/net/tcp" f = false) as ->
      by (apply String.eqb_neq; congruence).
    rewrite Ht. cbn [slice_from1]. rewrite scanTable_withTable, Hs. reflexivity.
Qed.

Lemma GetPidByPort_tcp_first_witness :
  GetPidByPort machine777 8080 = Ok 777 /\
  GetPidByPort (withTable machine777 "/proc/net/udp" []) 8080 = Ok 777.
Proof.
  destruct (GetPidByPort_tcp_first machine777 8080 777 header [listen8080])
    as [H1 H2]; [reflexivity | vm_compute; reflexivity|].
  split; [exact H1|]. apply H2. discriminate.
Defined.

Lemma scanRecord_not_listening P port dirs line pid :
  wf_record line = true -> listening P port line = None ->
  scanRecord P port dirs line pid = Next pid.
Proof.
  unfold wf_record, listening, scanRecord.
  destruct (length (Fields line) <? 10)%nat eqn:Hlen; [reflexivity|]. cbn [orb].
  apply Nat.ltb_ge in Hlen.
  destruct (lookup_lt_is_Some_2 (Fields line) 3%nat) as [state Hs]; [lia|].
  destruct (lookup_lt_is_Some_2 (Fields line) 1%nat) as [loc Hl]; [lia|].
  destruct (lookup_lt_is_Some_2 (Fields line) 9%nat) as [inode Hi]; [lia|].
  rewrite Hs, Hl, Hi.
  destruct (String.eqb state "0A"); cbn [negb orb andb]; [|reflexivity].
  destruct (Split loc ":" !! 1%nat) as [hex|]; [|discriminate].
  destruct (Hex2Dec P hex =? port); cbn [negb]; [discriminate|reflexivity].
Qed.

(** A well formed line that is not a listening record on the port (another
    state, another port, or fewer than ten fields) is passed over: taking
    it out of the lines scanned of a table leaves the result as it is. *)
Theorem GetPidByPort_skips_other_records (P : Proc) (port : Z) (f hdr : string)
    (pre post : list string) (line : string) :
  wf_record line = true -> listening P port line = None ->
  GetPidByPort (withTable P f (hdr :: pre ++ line :: post)) port =
  GetPidByPort (withTable P f (hdr :: pre ++ post)) port.
Proof.
  intros Hwf Hl. unfold GetPidByPort. cbn [Glob withTable].
  rewrite (scanFiles_same_scan P f (hdr :: pre ++ line :: post) (hdr :: pre ++ post));
    [reflexivity|].
  intros pid. cbn [slice_from1]. rewrite !scanTable_app.
  destruct (scanTable P port (Glob P) pre pid); auto.
  cbn [scanTable]. rewrite (scanRecord_not_listening _ _ _ _ _ Hwf Hl). reflexivity.
Qed.

Lemma GetPidByPort_skips_other_records_witness :
  GetPidByPort (withTable machine777 "/proc/net/tcp"
     (header :: [] ++ "1: 0100007F:0050 0:0 01 0:0 0:0 0 0 0 999" :: [listen8080])) 8080 =
  GetPidByPort (withTable machine777 "/proc/net/tcp"
     (header :: [] ++ [listen8080])) 8080.
Proof.
  apply (GetPidByPort_skips_other_records machine777 8080 "/proc/net/tcp" header []
           [listen8080] "1: 0100007F:0050 0:0 01 0:0 0:0 0 0 0 999");
    vm_compute; reflexivity.
Defined.

(** ** GetCpuInfo, further *)

Lemma scanCpu_app pre post st :
  scanCpu (pre ++ post) st = st1 ← scanCpu pre st; scanCpu post st1.
Proof.
  revert st. induction pre as [|l pre IH]; intros st; cbn [app scanCpu].
  - reflexivity.
  - destruct (scanCpuLine l st) as [st1|]; cbn [mbind Result_bind]; [apply IH|reflexivity].
Qed.

Lemma scanCpuLine_bare_id key st :
  key = "physical id" \/ key = "core id" -> scanCpuLine key st = Panic.
Proof. intros [->| ->]; reflexivity. Qed.

(** A "physical id" or "core id" standing alone on a line, without the
    tab and colon, makes [GetCpuInfo] panic at [sl[1]] wherever it comes in
    the dump; each of the six keys does so as the first line. *)
Theorem GetCpuInfo_bare_key_panics (key : string) (pre post : list string) (n : Z) :
  (key ∈ cpuKeys -> GetCpuInfo (Some (key :: post)) n = Panic) /\
  (key = "physical id" \/ key = "core id" ->
   forallb line_ok pre = true ->
   GetCpuInfo (Some (pre ++ key :: post)%list) n = Panic).
Proof.
  split.
  - unfold cpuKeys. rewrite !elem_of_cons, elem_of_nil.
    intros [->|[->|[->|[->|[->|[->|[]]]]]]]; reflexivity.
  - intros Hk Hok. unfold GetCpuInfo. rewrite scanCpu_app.
    destruct (scanCpu_sets pre
                {| res := emptyCpuInfo (wrap64 n); cpu := ∅; core := ∅; cpuID := "" |} Hok)
      as (st1 & -> & _).
    cbn [mbind Result_bind scanCpu]. rewrite (scanCpuLine_bare_id key st1 Hk).
    reflexivity.
Qed.

Lemma GetCpuInfo_bare_key_panics_witness :
  GetCpuInfo (Some ([kv "processor" "0"; kv "physical id" "0"] ++ "core id" :: [""])%list) 1
  = Panic.
Proof.
  destruct (GetCpuInfo_bare_key_panics "core id" [kv "processor" "0"; kv "physical id" "0"]
              [""] 1) as [_ H].
  apply H; [right; reflexivity | vm_compute; reflexivity].
Defined.

Ltac eqb_subst :=
  repeat match goal with
         | H : String.eqb ?k _ = true |- _ => apply String.eqb_eq in H; try subst k
         end.

Ltac keep_or_empty :=
  repeat match goal with
         | |- _ /\ _ => split
         | |- ?x = (if String.eqb ?x "" then "" else ?x) =>
             let Hq := fresh in
             destruct (String.eqb x "") eqn:Hq;
             [apply String.eqb_eq in Hq; exact Hq | reflexivity]
         | |- _ => reflexivity
         end.

(** What one line does to [Vendor] and to [Speed]. *)
Lemma scanCpuLine_vendor_speed text st st' :
  scanCpuLine text st = Ok st' ->
  Vendor (res st') =
    (if String.eqb (Vendor (res st)) "" then
       default "" (head (valuesOf "vendor_id" [text]))
     else Vendor (res st)) /\
  Speed (res st') =
    (if String.eqb (Speed (res st)) "" then
       default "" (head (valuesOf "cpu MHz" [text]))
     else Speed (res st)) /\
  (Cache (res st) <> 0 -> Cache (res st') = Cache (res st)).
Proof.
  unfold scanCpuLine. cbn [valuesOf]. unfold keyval. intros E.
  destruct (Split2_shape text) as [[Hs _]|(k & v & Hs & _)]; rewrite Hs in *; cbn in E.
  - assert (st' = st) as ->.
    { repeat match type of E with
             | context [if ?b then _ else _] => destruct b
             end; inversion E; reflexivity. }
    cbn. keep_or_empty.
  - destruct (String.eqb k "physical id") eqn:E1;
      [eqb_subst; inversion E; subst st'; cbn; keep_or_empty|].
    destruct (String.eqb k "core id") eqn:E2;
      [eqb_subst; inversion E; subst st'; cbn; keep_or_empty|].
    destruct (String.eqb k "vendor_id") eqn:E3.
    { cbn. destruct (String.eqb (Vendor (res st)) "") eqn:Hv;
        inversion E; subst st'; cbn; eqb_subst; cbn; keep_or_empty. }
    destruct (String.eqb k "model name") eqn:E4.
    { destruct (String.eqb (Model (res st)) ""); inversion E; subst st'; cbn;
        eqb_subst; cbn; keep_or_empty. }
    destruct (String.eqb k "cpu MHz") eqn:E5.
    { cbn. destruct (String.eqb (Speed (res st)) "") eqn:Hv;
        inversion E; subst st'; cbn; keep_or_empty. }
    cbn [fmap head default from_option].
    destruct (String.eqb k "cache size") eqn:E6;
      [|inversion E; subst st'; cbn; keep_or_empty].
    destruct (Cache (res st) =? 0) eqn:Hc;
      [|inversion E; subst st'; cbn; keep_or_empty].
    apply Z.eqb_eq in Hc.
    destruct (cpuRegCacheSize_FindStringSubmatch v) as [m|] eqn:Em;
      [|inversion E; subst st'; cbn; keep_or_empty].
    apply FindStringSubmatch_shape in Em as (ds & -> & _ & _). cbn in E.
    destruct (ParseUint ds) as [c [e|]]; inversion E; subst st'; cbn; keep_or_empty.
    intros Hne. contradiction.
Qed.

Lemma firstNonEmpty_step x0 key text lines :
  (let x1 := if String.eqb x0 "" then default "" (head (valuesOf key [text])) else x0 in
   if String.eqb x1 "" then firstNonEmpty (valuesOf key lines) else x1) =
  (if String.eqb x0 "" then firstNonEmpty (valuesOf key (text :: lines)) else x0).
Proof.
  cbn zeta. destruct (String.eqb x0 "") eqn:H0; [|rewrite H0; reflexivity].
  unfold firstNonEmpty. rewrite (valuesOf_cons key text lines).
  destruct (valuesOf_single key text) as [Hs|[v Hs]]; rewrite Hs;
    cbn [app head default from_option]; unfold id; [reflexivity|].
  destruct (String.eqb v "") eqn:Hv.
  - apply String.eqb_eq in Hv. rewrite filter_cons_False by (rewrite Hv; auto).
    reflexivity.
  - apply String.eqb_neq in Hv. rewrite filter_cons_True by exact Hv. reflexivity.
Qed.

Lemma firstNonEmpty_nil x0 key :
  x0 = (if String.eqb x0 "" then firstNonEmpty (valuesOf key []) else x0).
Proof.
  destruct (String.eqb x0 "") eqn:H0; [|reflexivity]. apply String.eqb_eq in H0. exact H0.
Qed.

Lemma scanCpu_vendor_speed lines : forall st st',
  scanCpu lines st = Ok st' ->
  Vendor (res st') =
    (if String.eqb (Vendor (res st)) "" then firstNonEmpty (valuesOf "vendor_id" lines)
     else Vendor (res st)) /\
  Speed (res st') =
    (if String.eqb (Speed (res st)) "" then firstNonEmpty (valuesOf "cpu MHz" lines)
     else Speed (res st)) /\
  (Cache (res st) <> 0 -> Cache (res st') = Cache (res st)).
Proof.
  induction lines as [|text lines IH]; intros st st' E; cbn [scanCpu] in E.
  - inversion E; subst. split; [apply firstNonEmpty_nil|].
    split; [apply firstNonEmpty_nil|auto].
  - destruct (scanCpuLine text st) as [st1|] eqn:E1; [|discriminate].
    cbn [mbind Result_bind] in E.
    destruct (scanCpuLine_vendor_speed _ _ _ E1) as (Hv1 & Hs1 & Hc1).
    destruct (IH st1 st' E) as (Hv & Hs & Hc).
    split; [|split].
    + rewrite Hv, Hv1. apply (firstNonEmpty_step (Vendor (res st)) "vendor_id").
    + rewrite Hs, Hs1. apply (firstNonEmpty_step (Speed (res st)) "cpu MHz").
    + intros Hne. rewrite Hc; rewrite (Hc1 Hne); [reflexivity|exact Hne].
Qed.

(** The [Vendor] and the [Speed] that [GetCpuInfo] reports are the first
    "vendor_id" value and the first "cpu MHz" value of the dump that are
    not empty: an empty value does not count as seen, and later values
    never overwrite one that was taken. *)
Theorem GetCpuInfo_first_vendor_speed (lines : list string) (n : Z) :
  forallb line_ok lines = true ->
  exists r, GetCpuInfo (Some lines) n = Ok r /\
    Vendor r = firstNonEmpty (valuesOf "vendor_id" lines) /\
    Speed r = firstNonEmpty (valuesOf "cpu MHz" lines).
Proof.
  intros Hok. unfold GetCpuInfo.
  destruct (scanCpu_sets lines
              {| res := emptyCpuInfo (wrap64 n); cpu := ∅; core := ∅; cpuID := "" |} Hok)
    as (st' & E & _).
  rewrite E. eexists. split; [reflexivity|]. cbn.
  destruct (scanCpu_vendor_speed lines _ st' E) as (Hv & Hs & _). auto.
Qed.

Lemma GetCpuInfo_first_vendor_speed_witness :
  exists r, GetCpuInfo (Some [kv "vendor_id" ""; kv "vendor_id" "GenuineIntel";
                              kv "cpu MHz" "2400.000"; kv "vendor_id" "AuthenticAMD";
                              kv "cpu MHz" "800.000"]) 1 = Ok r /\
    Vendor r = "GenuineIntel" /\ Speed r = "2400.000".
Proof.
  apply (GetCpuInfo_first_vendor_speed
           [kv "vendor_id" ""; kv "vendor_id" "GenuineIntel";
            kv "cpu MHz" "2400.000"; kv "vendor_id" "AuthenticAMD";
            kv "cpu MHz" "800.000"] 1).
  vm_compute. reflexivity.
Defined.

Lemma FindStringSubmatch_KB ds :
  ds <> "" -> allDigits ds = true ->
  cpuRegCacheSize_FindStringSubmatch (ds ++ " KB") = Some [ds ++ " KB"; ds].
Proof.
  intros Hne Ha. unfold cpuRegCacheSize_FindStringSubmatch.
  rewrite (spanDigits_KB ds Ha). destruct ds; [contradiction|reflexivity].
Qed.

(** The first "cache size" value of the literal form with a number that is
    not 0 (and fits 64 bits) is the [Cache] reported: values before it that
    lack the form are passed over, and no later value overwrites it. *)
Theorem GetCpuInfo_first_cache_size (pre rest : list string) (ds : string) (n : Z) :
  forallb line_ok pre = true -> forallb line_ok rest = true ->
  (forall w, w ∈ valuesOf "cache size" pre -> ~ cacheForm w) ->
  ds <> "" -> allDigits ds = true -> 0 < decimal ds <= MaxUint64 ->
  exists r, GetCpuInfo (Some (pre ++ kv "cache size" (ds ++ " KB") :: rest)%list) n = Ok r /\
            Cache r = decimal ds.
Proof.
  intros Hpre Hrest Hno Hne Ha Hd. unfold GetCpuInfo. rewrite scanCpu_app.
  destruct (scanCpu_sets pre
              {| res := emptyCpuInfo (wrap64 n); cpu := ∅; core := ∅; cpuID := "" |} Hpre)
    as (st1 & E1 & _).
  rewrite E1. cbn [mbind Result_bind scanCpu].
  pose proof (scanCpu_cache pre _ st1 E1 Hno) as Hc1. cbn in Hc1.
  rewrite (scanCpuLine_cache_size (ds ++ " KB") st1 Hc1).
  rewrite (FindStringSubmatch_KB ds Hne Ha).
  cbn [index lookup list_lookup mbind Result_bind].
  rewrite (ParseUint_decimal ds Hne Ha ltac:(lia)).
  cbn [mbind Result_bind].
  match goal with |- context [scanCpu rest ?s] => set (st2 := s) end.
  destruct (scanCpu_sets rest st2 Hrest) as (st' & E & _).
  rewrite E. eexists. split; [reflexivity|]. cbn.
  destruct (scanCpu_vendor_speed rest st2 st' E) as (_ & _ & Hk).
  rewrite Hk; [reflexivity|]. cbn. lia.
Qed.

Lemma GetCpuInfo_first_cache_size_witness :
  exists r, GetCpuInfo (Some ([kv "cache size" "8MB"] ++
                              kv "cache size" ("512" ++ " KB") ::
                              [kv "cache size" "1024 KB"])%list) 1 = Ok r /\
            Cache r = decimal "512".
Proof.
  apply (GetCpuInfo_first_cache_size [kv "cache size" "8MB"] [kv "cache size" "1024 KB"]
           "512" 1); try reflexivity.
  - intros w Hw (ds & Hne & Ha & Hv).
    apply list_elem_of_singleton in Hw. subst w.
    assert (spanDigits "8MB" = (ds, " KB")) as Hs by (rewrite Hv; apply spanDigits_KB, Ha).
    vm_compute in Hs. discriminate Hs.
  - discriminate.
  - vm_compute. split; [reflexivity | discriminate].
Defined.

Lemma physIds_app pre post :
  physIds (pre ++ post) = (physIds pre ++ physIds post)%list.
Proof.
  induction pre as [|text pre IH]; [reflexivity|]. cbn [app physIds].
  destruct (keyval text) as [[k v]|]; [|exact IH].
  destruct (String.eqb k "physical id"); [cbn; f_equal|]; exact IH.
Qed.

Lemma corePairs_app pre post : forall last,
  exists last',
    corePairs last (pre ++ post) = (corePairs last pre ++ corePairs last' post)%list.
Proof.
  induction pre as [|text pre IH]; intros last; [exists last; reflexivity|].
  cbn [app corePairs].
  destruct (keyval text) as [[k v]|]; [|apply IH].
  destruct (String.eqb k "physical id"); [apply IH|].
  destruct (String.eqb k "core id"); [|apply IH].
  destruct (IH last) as [last' ->]. exists last'. reflexivity.
Qed.

Lemma distinct_snoc_known `{Countable A} (l : list A) (x : A) :
  x ∈ l -> distinct (l ++ [x]) = distinct l.
Proof.
  intros Hx. unfold distinct. f_equal. f_equal.
  rewrite list_to_set_app_L, list_to_set_singleton_L.
  apply (elem_of_list_to_set (C := gset A)) in Hx. set_solver.
Qed.

(** Logical processors of one core are counted once: a further block that
    repeats a physical id and a core id already seen together changes
    neither [Cpus] nor [Cores]. *)
Theorem GetCpuInfo_sibling_not_counted (lines : list string) (p c : string) (n : Z) :
  forallb line_ok lines = true ->
  p ∈ physIds lines -> (p, c) ∈ corePairs "" lines ->
  exists r r',
    GetCpuInfo (Some lines) n = Ok r /\
    GetCpuInfo (Some (lines ++ [kv "physical id" p; kv "core id" c])%list) n = Ok r' /\
    Cpus r' = Cpus r /\ Cores r' = Cores r.
Proof.
  intros Hok Hp Hpc.
  assert (forallb line_ok (lines ++ [kv "physical id" p; kv "core id" c]) = true) as Hok'.
  { rewrite forallb_app, Hok. reflexivity. }
  destruct (GetCpuInfo_counts lines n Hok) as (r & E & _ & Hc & Hk).
  destruct (GetCpuInfo_counts _ n Hok') as (r' & E' & _ & Hc' & Hk').
  exists r, r'. split; [exact E|]. split; [exact E'|].
  rewrite Hc, Hk, Hc', Hk', physIds_app.
  destruct (corePairs_app lines [kv "physical id" p; kv "core id" c] "") as [last' ->].
  change (physIds [kv "physical id" p; kv "core id" c]) with [p].
  change (corePairs last' [kv "physical id" p; kv "core id" c]) with [(p, c)].
  rewrite fmap_app. cbn [fmap list_fmap].
  split; apply distinct_snoc_known; [exact Hp|].
  apply list_elem_of_fmap. exists (p, c). auto.
Qed.

Lemma GetCpuInfo_sibling_not_counted_witness :
  exists r r',
    GetCpuInfo (Some dump_two_cores) 4 = Ok r /\
    GetCpuInfo (Some (dump_two_cores ++ [kv "physical id" "0"; kv "core id" "1"])%list) 4
      = Ok r' /\
    Cpus r' = Cpus r /\ Cores r' = Cores r.
Proof.
  apply (GetCpuInfo_sibling_not_counted dump_two_cores "0" "1" 4).
  - vm_compute. reflexivity.
  - apply list_elem_of_In. vm_compute. auto.
  - apply list_elem_of_In. vm_compute. auto.
Defined.

(** [Cpus] never exceeds the number of "physical id" lines nor [Cores] the
    number of "core id" lines, and without any "physical id" line [Cpus] is
    0 while [Cores] still counts the core ids, paired with the empty id. *)
Theorem GetCpuInfo_count_bounds (lines : list string) (n : Z) :
  forallb line_ok lines = true ->
  exists r, GetCpuInfo (Some lines) n = Ok r /\
    0 <= Cpus r <= Z.of_nat (length (physIds lines)) /\
    0 <= Cores r <= Z.of_nat (length (corePairs "" lines)) /\
    (physIds lines = [] ->
     Cpus r = 0 /\ Cores r = distinct (snd <$> corePairs "" lines)).
Proof.
  intros Hok. destruct (GetCpuInfo_counts lines n Hok) as (r & E & _ & Hc & Hk).
  exists r. split; [exact E|]. rewrite Hc, Hk. unfold distinct.
  pose proof (size_list_to_set_le (physIds lines)) as H1.
  pose proof (size_list_to_set_le (compoundKey <$> corePairs "" lines)) as H2.
  rewrite length_fmap in H2.
  split; [lia|]. split; [lia|].
  intros Hnil. rewrite Hnil. split; [reflexivity|].
  f_equal. apply Nat.le_antisymm.
  - apply (size_covered (fun v => compoundKey ("", v))). intros k Hk'.
    rewrite elem_of_list_to_set, list_elem_of_fmap in Hk'.
    destruct Hk' as ([p c] & -> & Hpc).
    exists c. split; [rewrite elem_of_list_to_set, list_elem_of_fmap; exists (p, c); auto|].
    destruct (corePairs_fst _ _ _ _ Hpc) as [->|Hin]; [reflexivity|].
    rewrite Hnil in Hin. inversion Hin.
  - apply (size_covered (fun k => snd (splitKey k))). intros v Hv.
    rewrite elem_of_list_to_set, list_elem_of_fmap in Hv.
    destruct Hv as ([p c] & -> & Hpc).
    exists (compoundKey (p, c)). split.
    + rewrite elem_of_list_to_set, list_elem_of_fmap. eauto.
    + destruct (corePairs_fst _ _ _ _ Hpc) as [->|Hin]; [reflexivity|].
      rewrite Hnil in Hin. inversion Hin.
Qed.

Lemma GetCpuInfo_count_bounds_witness :
  exists r, GetCpuInfo (Some [kv "core id" "0"; kv "core id" "1"; kv "core id" "0"]) 2 = Ok r /\
    Cpus r = 0 /\ Cores r = 2.
Proof.
  destruct (GetCpuInfo_count_bounds [kv "core id" "0"; kv "core id" "1"; kv "core id" "0"] 2)
    as (r & E & _ & _ & H); [vm_compute; reflexivity|].
  exists r. split; [exact E|]. destruct (H eq_refl) as [H1 H2].
  split; [exact H1|]. rewrite H2. vm_compute. reflexivity.
Defined.

(** ** IsPublicIP and IsPrivateIp *)

Lemma byteAt_0 x l : byteAt (x :: l) 0 = byte x.
Proof. reflexivity. Qed.

Lemma byteAt_S x l i : byteAt (x :: l) (S i) = byteAt l i.
Proof. reflexivity. Qed.

Lemma index_0 {A} (x : A) l : index (x :: l) 0 = Ok x.
Proof. reflexivity. Qed.

Lemma index_S {A} (x : A) l i : index (x :: l) (S i) = index l i.
Proof. reflexivity. Qed.

Ltac case_atoms :=
  repeat (match goal with
          | |- context [Z.eqb ?x ?y] => destruct (Z.eqb x y)
          | |- context [Z.leb ?x ?y] => destruct (Z.leb x y)
          end; cbn [andb orb negb mbind Result_bind]);
  try reflexivity.

Lemma IsPublicIP_v4_bytes (a b c d : ascii) :
  IsPublicIP [a; b; c; d] = Ok (publicV4 (byte a) (byte b) (byte c)).
Proof.
  unfold IsPublicIP, IsLoopback, IsLinkLocalMulticast, IsLinkLocalUnicast, publicV4.
  change (To4 [a; b; c; d]) with (Some [a; b; c; d]).
  rewrite ?byteAt_S, ?byteAt_0, ?index_S, ?index_0.
  cbn [mbind Result_bind].
  generalize (byte a) (byte b) (byte c). intros A B C. case_atoms.
Qed.

Lemma land_255 c : Z.land (byte c) 255 = byte c.
Proof. destruct c as [[] [] [] [] [] [] [] []]; reflexivity. Qed.

Lemma land_240_16 c :
  (16 =? Z.land (byte c) 240) = (16 <=? byte c) && (byte c <=? 31).
Proof. destruct c as [[] [] [] [] [] [] [] []]; reflexivity. Qed.

Lemma Contains_v4_net (n1 n2 n3 n4 m1 m2 m3 m4 a b c d : ascii) :
  Contains_net {| netIP := [n1; n2; n3; n4]; netMask := [m1; m2; m3; m4] |} [a; b; c; d] =
  (Z.land (byte n1) (byte m1) =? Z.land (byte a) (byte m1))
  && ((Z.land (byte n2) (byte m2) =? Z.land (byte b) (byte m2))
      && ((Z.land (byte n3) (byte m3) =? Z.land (byte c) (byte m3))
          && ((Z.land (byte n4) (byte m4) =? Z.land (byte d) (byte m4)) && true))).
Proof. reflexivity. Qed.

Lemma Contains_v6_net_v4 (n : IPNet) (a b c d : ascii) :
  length (fst (networkNumberAndMask n)) = 16%nat ->
  Contains_net n [a; b; c; d] = false.
Proof.
  unfold Contains_net. destruct (networkNumberAndMask n) as [nn m]. cbn [fst].
  intros ->. reflexivity.
Qed.

Ltac eval_closed :=
  repeat match goal with
         | |- context [byte (Ascii ?b0 ?b1 ?b2 ?b3 ?b4 ?b5 ?b6 ?b7)] =>
             let v := eval vm_compute in (byte (Ascii b0 b1 b2 b3 b4 b5 b6 b7)) in
             change (byte (Ascii b0 b1 b2 b3 b4 b5 b6 b7)) with v
         end;
  repeat match goal with
         | |- context [Z.land (Zpos ?p) ?y] =>
             lazymatch y with
             | Z0 => idtac
             | Zpos _ => idtac
             end;
             let v := eval vm_compute in (Z.land (Zpos p) y) in
             change (Z.land (Zpos p) y) with v
         | |- context [Z.land Z0 ?y] => change (Z.land Z0 y) with Z0
         end.

Lemma PrivateCIDR_v4 (a b c d : ascii) :
  existsb (fun n => Contains_net n [a; b; c; d]) PrivateCIDR = privateV4 (byte a) (byte b).
Proof.
  let v := eval vm_compute in PrivateCIDR in change PrivateCIDR with v.
  cbn [existsb].
  rewrite !Contains_v4_net.
  rewrite !Contains_v6_net_v4 by reflexivity.
  eval_closed.
  rewrite ?Z.land_0_r, ?land_255, ?land_240_16.
  change (0 =? 0) with true.
  rewrite (Z.eqb_sym 127), (Z.eqb_sym 10), (Z.eqb_sym 172), (Z.eqb_sym 192),
    (Z.eqb_sym 168), (Z.eqb_sym 169), (Z.eqb_sym 254).
  unfold privateV4. generalize (byte a) (byte b). intros A B. case_atoms.
Qed.

Lemma To4_Some ip ip4 :
  To4 ip = Some ip4 ->
  (exists a b c d, ip4 = [a; b; c; d]) /\ To4 ip4 = Some ip4.
Proof.
  unfold To4. destruct (length ip =? 4)%nat eqn:H4.
  - intros [= <-]. rewrite H4. split; [|reflexivity].
    apply Nat.eqb_eq in H4.
    do 5 (destruct ip as [|? ip]; try discriminate H4). eauto.
  - destruct (length ip =? 16)%nat eqn:H16; [|discriminate].
    apply Nat.eqb_eq in H16.
    do 17 (destruct ip as [|? ip]; try discriminate H16).
    cbn [andb]. destruct (isZeros _ && _ && _); [|discriminate].
    intros [= <-]. split; [eauto|reflexivity].
Qed.

Lemma IsPublicIP_To4 ip ip4 : To4 ip = Some ip4 -> IsPublicIP ip = IsPublicIP ip4.
Proof.
  intros H. destruct (To4_Some ip ip4 H) as [_ H4].
  unfold IsPublicIP, IsLoopback, IsLinkLocalMulticast, IsLinkLocalUnicast.
  rewrite H, H4. reflexivity.
Qed.

Lemma Contains_net_To4 n ip ip4 :
  To4 ip = Some ip4 -> Contains_net n ip = Contains_net n ip4.
Proof.
  intros H. destruct (To4_Some ip ip4 H) as [_ H4].
  unfold Contains_net. rewrite H, H4. reflexivity.
Qed.

Lemma existsb_same {A} (f g : A -> bool) (l : list A) :
  (forall x, f x = g x) -> existsb f l = existsb g l.
Proof. intros H. induction l as [|x l IH]; cbn; [reflexivity|]. rewrite H, IH. reflexivity. Qed.

(** An address that is not IPv4 (every proper IPv6 address, and every
    slice that is no address at all) is never reported public, and the
    function does not panic on it. *)
Theorem IsPublicIP_not_ipv4 (ip : list ascii) :
  To4 ip = None -> IsPublicIP ip = Ok false.
Proof.
  intros H. unfold IsPublicIP. rewrite H.
  destruct (IsLoopback ip || IsLinkLocalMulticast ip || IsLinkLocalUnicast ip);
    reflexivity.
Qed.

Lemma IsPublicIP_not_ipv4_witness :
  IsPublicIP ([b8 32; b8 1; b8 13; b8 184] ++ replicate 11 (b8 0) ++ [b8 1]) = Ok false.
Proof.
  apply (IsPublicIP_not_ipv4 ([b8 32; b8 1; b8 13; b8 184] ++ replicate 11 (b8 0) ++ [b8 1])).
  reflexivity.
Defined.

(** For an IPv4 address a.b.c.d, given as four bytes or as the 16 bytes
    of its IPv4-mapped form, [IsPublicIP] returns without a panic, and the
    answer is: not 127/8, not 224.0.0/24, not 169.254/16, not 10/8, not
    172.16/12 and not 192.168/16.  (So 100.64.0.0/10, 0.0.0.0 and
    255.255.255.255 count as public.) *)
Theorem IsPublicIP_ipv4 (ip : list ascii) (a b c d : ascii) :
  To4 ip = Some [a; b; c; d] ->
  IsPublicIP ip = Ok (publicV4 (byte a) (byte b) (byte c)).
Proof.
  intros H. rewrite (IsPublicIP_To4 ip _ H). apply IsPublicIP_v4_bytes.
Qed.

Lemma IsPublicIP_ipv4_witness :
  IsPublicIP (v4 100 64 0 1) = Ok true /\ IsPublicIP (v4 172 31 255 255) = Ok false.
Proof.
  split.
  - apply (IsPublicIP_ipv4 (v4 100 64 0 1) (b8 100) (b8 64) (b8 0) (b8 1)). reflexivity.
  - apply (IsPublicIP_ipv4 (v4 172 31 255 255) (b8 172) (b8 31) (b8 255) (b8 255)).
    reflexivity.
Defined.

Lemma PrivateCIDR_not_public (ip : list ascii) :
  existsb (fun n => Contains_net n ip) PrivateCIDR = true ->
  IsPublicIP ip = Ok false.
Proof.
  intros Hp. destruct (To4 ip) as [ip4|] eqn:H4;
    [|unfold IsPublicIP; rewrite H4;
      destruct (IsLoopback ip || IsLinkLocalMulticast ip || IsLinkLocalUnicast ip);
      reflexivity].
  destruct (To4_Some ip ip4 H4) as [(a & b & c & d & ->) _].
  rewrite (IsPublicIP_To4 ip _ H4), IsPublicIP_v4_bytes.
  assert (existsb (fun n => Contains_net n [a; b; c; d]) PrivateCIDR = true) as Hp4.
  { rewrite <- Hp. apply existsb_same. intros n. symmetry.
    apply (Contains_net_To4 n ip _ H4). }
  rewrite PrivateCIDR_v4 in Hp4. f_equal.
  unfold privateV4 in Hp4. unfold publicV4.
  revert Hp4. generalize (byte a) (byte b) (byte c). intros A B C.
  destruct (A =? 127) eqn:E1; [reflexivity|].
  destruct (A =? 10) eqn:E2; [intros _; cbn; rewrite !orb_true_r; reflexivity|].
  destruct (A =? 172) eqn:E3, (16 <=? B) eqn:E4, (B <=? 31) eqn:E5,
           (A =? 192) eqn:E6, (B =? 168) eqn:E7, (A =? 169) eqn:E8, (B =? 254) eqn:E9;
    cbn; intros Hp4; try discriminate Hp4;
    rewrite ?andb_false_r, ?orb_true_r, ?orb_false_r; try reflexivity; lia.
Qed.

(** For an address that parses to an IPv4 address a.b.c.d, with
    [KPrivCidrs] not yet set or set by an earlier call, [IsPrivateIp]
    answers without error whether the address lies in 127/8, 10/8,
    172.16/12, 192.168/16 or 169.254/16, and leaves [KPrivCidrs] set to
    the eight blocks of [PrivateCIDR]. *)
Theorem IsPrivateIp_ipv4 (ParseIP : string -> option (list ascii))
    (cidrs : option (list IPNet)) (address : string) (ip : list ascii)
    (a b c d : ascii) :
  ParseIP address = Some ip -> To4 ip = Some [a; b; c; d] ->
  cidrs = None \/ cidrs = Some PrivateCIDR ->
  IsPrivateIp ParseIP cidrs address =
  ((privateV4 (byte a) (byte b), None), Some PrivateCIDR).
Proof.
  intros Hparse H4 Hc. unfold IsPrivateIp. rewrite Hparse.
  assert (match cidrs with None => PrivateCIDR | Some l => l end = PrivateCIDR) as ->
    by (destruct Hc as [->| ->]; reflexivity).
  rewrite (existsb_same _ (fun n => Contains_net n [a; b; c; d]))
    by (intros n; apply (Contains_net_To4 n ip _ H4)).
  rewrite PrivateCIDR_v4. reflexivity.
Qed.

Lemma IsPrivateIp_ipv4_witness :
  IsPrivateIp parseTwo None "192.168.1.10" = ((true, None), Some PrivateCIDR) /\
  IsPrivateIp parseTwo (Some PrivateCIDR) "100.64.0.1" = ((false, None), Some PrivateCIDR).
Proof.
  split.
  - apply (IsPrivateIp_ipv4 parseTwo None "192.168.1.10" (v4 192 168 1 10)
             (b8 192) (b8 168) (b8 1) (b8 10)); [reflexivity | reflexivity | auto].
  - apply (IsPrivateIp_ipv4 parseTwo (Some PrivateCIDR) "100.64.0.1" (v4 100 64 0 1)
             (b8 100) (b8 64) (b8 0) (b8 1)); [reflexivity | reflexivity | auto].
Defined.

(** [IsPrivateIp] and [IsPublicIP] never both say yes: an address that
    [IsPrivateIp] reports private (IPv4 or IPv6) is reported not public by
    [IsPublicIP]. *)
Theorem IsPrivateIp_not_public (ParseIP : string -> option (list ascii))
    (cidrs : option (list IPNet)) (address : string) (ip : list ascii) :
  ParseIP address = Some ip ->
  cidrs = None \/ cidrs = Some PrivateCIDR ->
  fst (fst (IsPrivateIp ParseIP cidrs address)) = true ->
  IsPublicIP ip = Ok false.
Proof.
  intros Hparse Hc. unfold IsPrivateIp. rewrite Hparse.
  assert (match cidrs with None => PrivateCIDR | Some l => l end = PrivateCIDR) as ->
    by (destruct Hc as [->| ->]; reflexivity).
  cbn [fst]. apply PrivateCIDR_not_public.
Qed.

Lemma IsPrivateIp_not_public_witness :
  IsPublicIP (v4 192 168 1 10) = Ok false.
Proof.
  apply (IsPrivateIp_not_public parseTwo None "192.168.1.10" (v4 192 168 1 10));
    [reflexivity | auto | vm_compute; reflexivity].
Defined.

(** ** LocalIP, GetIPs, GetIpByHostname, GetIpsByDomain *)

(** [LocalIP] is the first address of [GetIPs], the empty string when
    [GetIPs] has none, together with the error of the interface query. *)
Theorem LocalIP_head_GetIPs (str : list ascii -> string) (addrs : list Addr)
    (err : option string) :
  LocalIP str addrs err = (default "" (head (GetIPs str addrs)), err).
Proof.
  unfold LocalIP. f_equal.
  assert (localIPLoop str addrs = default "" (head (GetIPs str addrs))) as <-.
  { induction addrs as [|a addrs IH]; [reflexivity|]. cbn.
    destruct (isLocalV4 a); [reflexivity|exact IH]. }
  destruct addrs; reflexivity.
Qed.

(** [GetIpByHostname] is the first address of [GetIpsByDomain] for the
    same lookup, the empty string when that has none, with the same error:
    the error of the lookup is reported only when the lookup gave no
    address at all. *)
Theorem GetIpByHostname_head (str : list ascii -> string)
    (ips : option (list (list ascii))) (err : option string) :
  GetIpByHostname str ips err =
  (default "" (head (fst (GetIpsByDomain str ips err))),
   snd (GetIpsByDomain str ips err)) /\
  (forall l, snd (GetIpByHostname str (Some l) err) = None).
Proof.
  split; [|reflexivity].
  destruct ips as [l|]; cbn; [|reflexivity]. f_equal.
  induction l as [|v l IH]; [reflexivity|]. cbn.
  destruct (To4 v); [reflexivity|exact IH].
Qed.

(** ** ClientIp *)

Lemma forwardedLoop_find ParseIP entries : forall cidrs,
  cidrs = None \/ cidrs = Some PrivateCIDR ->
  fst (forwardedLoop ParseIP entries cidrs) =
  TrimSpace <$> List.find (publicEntry ParseIP) entries.
Proof.
  induction entries as [|e entries IH]; intros cidrs Hc; [reflexivity|].
  cbn [forwardedLoop List.find]. unfold IsPrivateIp, publicEntry at 1.
  assert (match cidrs with None => PrivateCIDR | Some l => l end = PrivateCIDR) as ->
    by (destruct Hc as [->| ->]; reflexivity).
  destruct (ParseIP (TrimSpace e)) as [ip|].
  - destruct (existsb (fun n => Contains_net n ip) PrivateCIDR); cbn [negb].
    + apply IH. right. reflexivity.
    + reflexivity.
  - apply IH, Hc.
Qed.

(** With one of the two headers present, [ClientIp] never looks at the
    address of the connection: it returns the first entry of
    X-Forwarded-For that, trimmed, parses as an address outside the
    private blocks; when there is none it returns X-Real-Ip as it came,
    not validated, with "::1" turned into "127.0.0.1". *)
Theorem ClientIp_headers (ParseIP : string -> option (list ascii))
    (SplitHost : string -> string) (cidrs : option (list IPNet))
    (xRealIP xForwardedFor RemoteAddr : string) :
  cidrs = None \/ cidrs = Some PrivateCIDR ->
  xRealIP <> "" \/ xForwardedFor <> "" ->
  fst (ClientIp ParseIP SplitHost cidrs xRealIP xForwardedFor RemoteAddr) =
  match List.find (publicEntry ParseIP) (Split xForwardedFor ",") with
  | Some e => TrimSpace e
  | None => if String.eqb xRealIP "::1" then "127.0.0.1" else xRealIP
  end.
Proof.
  intros Hc Hh. unfold ClientIp.
  assert (String.eqb xRealIP "" && String.eqb xForwardedFor "" = false) as ->.
  { apply andb_false_iff. destruct Hh as [H|H]; [left|right]; apply String.eqb_neq, H. }
  pose proof (forwardedLoop_find ParseIP (Split xForwardedFor ",") cidrs Hc) as Hf.
  destruct (forwardedLoop ParseIP (Split xForwardedFor ",") cidrs) as [[a|] c'];
    cbn [fst] in *;
    destruct (List.find (publicEntry ParseIP) (Split xForwardedFor ",")) as [e|];
    cbn in Hf; congruence.
Qed.

Lemma ClientIp_headers_witness :
  fst (ClientIp parseTwo (fun _ => "") None "10.0.0.1" " 192.168.1.10 , 100.64.0.1"
         "203.0.113.7:4711") = TrimSpace " 100.64.0.1" /\
  fst (ClientIp parseTwo (fun _ => "") None "::1" "192.168.1.10" "203.0.113.7:4711")
    = "127.0.0.1".
Proof.
  split.
  - rewrite (ClientIp_headers parseTwo (fun _ => "") None "10.0.0.1"
               " 192.168.1.10 , 100.64.0.1" "203.0.113.7:4711");
      [reflexivity | auto | left; discriminate].
  - rewrite (ClientIp_headers parseTwo (fun _ => "") None "::1" "192.168.1.10"
               "203.0.113.7:4711");
      [reflexivity | auto | left; discriminate].
Defined.

Lemma MemoryUsage_consistency_witness :
  exists used free total,
    MemoryUsage (Some (joinLines ["MemTotal:  16000 kB"; "MemFree: 4000 kB"])) None true
      = (used, free, total) /\
    used + free = total.
Proof.
  destruct (MemoryUsage_consistency
              (Some (joinLines ["MemTotal:  16000 kB"; "MemFree: 4000 kB"])) None)
    as (u & f & t & E & _ & _ & _ & H & _).
  exists u, f, t. split; [exact E|]. apply H.
  vm_compute in E. injection E as _ <- <-. discriminate.
Defined.
